(** * pyhodl: date-indexed tables, exchange parsers, wallets and balances

    A shallow embedding of
      - [pyhodl/models/tables.py]         (DatetimeTable),
      - [pyhodl/core/models/exchanges.py] (CryptoExchange, Portfolio),
      - [pyhodl/data/exchanges.py]        (the four exchange parsers),
      - [pyhodl/utils/misc.py]            (numeric helpers),
    followed by the properties established about them. *)

From Stdlib Require Import ZArith QArith Qabs Qround Ascii String Lia.
From Stdlib Require Import Lqa.
From Equations Require Import Equations.
From stdpp Require Import base option list sorting gmap strings.

Local Open Scope Z_scope.

(** ** Python values, exceptions and builtins *)

Module Py.

(** The exceptions the embedded code can raise. *)
Inductive exn : Type :=
  | KeyError | TypeError | ValueError | IndexError | AttributeError
  | OverflowError | OSError.

(** A computation either returns or raises. *)
Inductive result (A : Type) : Type :=
  | Ok (a : A)
  | Raise (e : exn).
Arguments Ok {A} a.
Arguments Raise {A} e.

#[export] Instance result_ret : MRet result := fun A a => Ok a.
#[export] Instance result_bind : MBind result := fun A B f m =>
  match m with
  | Ok a => f a
  | Raise e => Raise e
  end.

#[export] Instance result_fmap : FMap result := fun A B f m =>
  match m with
  | Ok a => Ok (f a)
  | Raise e => Raise e
  end.

(** [try: body except: return default] with a bare [except]. *)
Definition try_except {A} (body : result A) (default : A) : result A :=
  match body with
  | Ok a => Ok a
  | Raise _ => Ok default
  end.

(** [sorted(l, key=key)]: Python's sort is stable, so is this insertion
    sort: an element is placed before the entries of equal key that
    followed it in the input. *)
Fixpoint insert_by {A} (key : A -> Z) (x : A) (l : list A) : list A :=
  match l with
  | [] => [x]
  | y :: l' => if key x <=? key y then x :: l else y :: insert_by key x l'
  end.

Definition sorted {A} (key : A -> Z) (l : list A) : list A :=
  foldr (insert_by key) [] l.

(** The order [sorted] establishes. *)
Definition key_le {A} (key : A -> Z) (a b : A) : Prop := key a <= key b.

(** [bisect.bisect] (that is [bisect_right]) as CPython writes it:
<<
    lo, hi = 0, len(a)
    while lo < hi:
        mid = (lo + hi) // 2
        if x < a[mid]: hi = mid
        else: lo = mid + 1
    return lo
>> *)
Equations? bisect_loop (a : list Z) (x : Z) (lo hi : nat) : nat
  by wf (hi - lo)%nat lt :=
  bisect_loop a x lo hi with lt_dec lo hi => {
    | right _ := lo
    | left _ with a !! ((lo + hi) / 2)%nat => {
        | None := lo
        | Some am with Z_lt_dec x am => {
            | left _ := bisect_loop a x lo ((lo + hi) / 2)%nat
            | right _ := bisect_loop a x (S ((lo + hi) / 2)%nat) hi } } }.
Proof.
  - assert (((lo + hi) / 2 < hi)%nat) by (apply Nat.Div0.div_lt_upper_bound; lia).
    lia.
  - assert (((lo + hi) / 2 < hi)%nat) by (apply Nat.Div0.div_lt_upper_bound; lia).
    assert ((lo <= (lo + hi) / 2)%nat) by (apply Nat.div_le_lower_bound; lia).
    lia.
Qed.

Definition bisect (a : list Z) (x : Z) : nat := bisect_loop a x 0 (length a).


(** [l[i]] on a Python list: a negative index counts from the end, an
    index out of range raises. *)
Definition list_getitem {A} (l : list A) (i : Z) : result A :=
  let j := if i <? 0 then i + Z.of_nat (length l) else i in
  if (0 <=? j) && (j <? Z.of_nat (length l)) then
    match l !! Z.to_nat j with
    | Some x => Ok x
    | None => Raise IndexError
    end
  else Raise IndexError.

(** *** Raw records

    What [json.load] hands to the parsers: [None], booleans, numbers,
    strings and dicts with string keys. Numbers are exact rationals: the
    code below only adds, multiplies, negates and compares them with
    zero, and rounding is not modelled. *)
#[warnings="-register-all"]
Inductive json : Type :=
  | JNone
  | JBool (b : bool)
  | JNum (q : Q)
  | JStr (s : string)
  | JDict (d : list (string * json)).

Abbreviation dict := (list (string * json)).

Fixpoint dict_lookup (d : dict) (k : string) : option json :=
  match d with
  | [] => None
  | (k', v) :: d' => if String.eqb k k' then Some v else dict_lookup d' k
  end.

(** [k in d] for a dict [d]. *)
Definition contains (k : string) (d : dict) : bool :=
  match dict_lookup d k with
  | Some _ => true
  | None => false
  end.

(** [d[k]] for a dict [d]. *)
Definition getitem (d : dict) (k : string) : result json :=
  match dict_lookup d k with
  | Some v => Ok v
  | None => Raise KeyError
  end.

(** [v[k]] for any value [v]: only a dict can be indexed by a string. *)
Definition subscript (v : json) (k : string) : result json :=
  match v with
  | JDict d => getitem d k
  | _ => Raise TypeError
  end.

(** [sub in s] for strings. *)
Definition is_substring (sub s : string) : bool :=
  match String.index 0 sub s with
  | Some _ => true
  | None => String.eqb sub ""
  end.

(** [k in v] for any value [v]: key membership in a dict, substring test
    in a string, [TypeError] for what is not a container. *)
Definition py_in (k : string) (v : json) : result bool :=
  match v with
  | JDict d => Ok (contains k d)
  | JStr s => Ok (is_substring k s)
  | _ => Raise TypeError
  end.

(** [v == s] for a string literal [s]. *)
Definition eq_str (v : json) (s : string) : bool :=
  match v with
  | JStr s' => String.eqb s' s
  | _ => false
  end.

(** [v in [s1, ..., sn]] for string literals. *)
Definition in_strs (v : json) (l : list string) : bool :=
  existsb (eq_str v) l.

Definition bool_to_Q (b : bool) : Q := if b then 1%Q else 0%Q.

(** [a == b] on values; [True == 1] and dicts compare as mappings. *)
Fixpoint json_eqb (a b : json) : bool :=
  match a, b with
  | JNone, JNone => true
  | JBool x, JBool y => Bool.eqb x y
  | JBool x, JNum y => Qeq_bool (bool_to_Q x) y
  | JNum x, JBool y => Qeq_bool x (bool_to_Q y)
  | JNum x, JNum y => Qeq_bool x y
  | JStr x, JStr y => String.eqb x y
  | JDict x, JDict y =>
      (length x =? length y)%nat
      && forallb (fun kv =>
                    match dict_lookup y kv.1 with
                    | Some v' => json_eqb kv.2 v'
                    | None => false
                    end) x
  | _, _ => false
  end.

(** Truth value of an object in a condition. *)
Definition truthy (v : json) : bool :=
  match v with
  | JNone => false
  | JBool b => b
  | JNum q => negb (Qeq_bool q 0)
  | JStr s => negb (String.eqb s "")
  | JDict d => negb (length d =? 0)%nat
  end.

(** *** Numbers from strings

    Plain decimal notation: an optional sign, digits, an optional
    fraction. (Python's [float] also reads exponents, "inf", "nan",
    underscores and surrounding blanks; here they are a [ValueError].) *)
Definition digit (c : ascii) : option Z :=
  let n := Z.of_nat (nat_of_ascii c) in
  if (48 <=? n) && (n <=? 57) then Some (n - 48) else None.

Fixpoint digits (acc : Z) (s : string) : option Z :=
  match s with
  | EmptyString => Some acc
  | String c s' =>
      match digit c with
      | Some d => digits (10 * acc + d) s'
      | None => None
      end
  end.

Fixpoint split_dot (s : string) : string * option string :=
  match s with
  | EmptyString => (EmptyString, None)
  | String c s' =>
      if Ascii.eqb c "."%char then (EmptyString, Some s')
      else let '(a, b) := split_dot s' in (String c a, b)
  end.

Definition unsigned_decimal (s : string) : option Q :=
  let '(ip, fp) := split_dot s in
  let fp := default EmptyString fp in
  if ((String.length ip + String.length fp) =? 0)%nat then None
  else
    match digits 0 ip, digits 0 fp with
    | Some i, Some f =>
        Some (inject_Z i + inject_Z f / inject_Z (10 ^ Z.of_nat (String.length fp)))%Q
    | _, _ => None
    end.

Definition signed {A} (neg : A -> A) (body : string -> option A) (s : string)
  : option A :=
  match s with
  | String "-"%char s' => neg <$> body s'
  | String "+"%char s' => body s'
  | _ => body s
  end.

Definition unsigned_integer (s : string) : option Z :=
  if (String.length s =? 0)%nat then None else digits 0 s.

(** [float(v)]. *)
Definition float (v : json) : result Q :=
  match v with
  | JNum q => Ok q
  | JBool b => Ok (bool_to_Q b)
  | JStr s =>
      match signed Qopp unsigned_decimal s with
      | Some q => Ok q
      | None => Raise ValueError
      end
  | JNone | JDict _ => Raise TypeError
  end.

(** [int(x)] for a float [x]: truncation towards zero. *)
Definition trunc (q : Q) : Z := Z.quot (Qnum q) (Zpos (Qden q)).

(** [int(v)]. *)
Definition int (v : json) : result Z :=
  match v with
  | JNum q => Ok (trunc q)
  | JBool b => Ok (if b then 1 else 0)
  | JStr s =>
      match signed Z.opp unsigned_integer s with
      | Some z => Ok z
      | None => Raise ValueError
      end
  | JNone | JDict _ => Raise TypeError
  end.

(** *** Strings *)

(** A method or a slice of a [str] asked of another value. *)
Definition as_str (e : exn) (v : json) : result string :=
  match v with
  | JStr s => Ok s
  | _ => Raise e
  end.

(** Where index [k] of a slice falls in a sequence of length [n]. *)
Definition slice_bound (n : nat) (k : Z) : nat :=
  if k <? 0 then Z.to_nat (Z.of_nat n + k) else Nat.min (Z.to_nat k) n.

(** [s[:k]] and [s[k:]]. *)
Definition slice_to (s : string) (k : Z) : string :=
  substring 0 (slice_bound (String.length s) k) s.

Definition slice_from (s : string) (k : Z) : string :=
  let b := slice_bound (String.length s) k in
  substring b (String.length s - b) s.

(** [s.endswith(suffix)]. *)
Definition endswith (s suffix : string) : bool :=
  (String.length suffix <=? String.length s)%nat
  && String.eqb (slice_from s (- Z.of_nat (String.length suffix))) suffix.

(** [s.replace(old, new)] for a non-empty [old]: occurrences are found
    from the left and do not overlap; [skip] counts the characters of a
    replaced occurrence still to pass over. *)
Fixpoint replace_from (skip : nat) (old new s : string) : string :=
  match s with
  | EmptyString => EmptyString
  | String c s' =>
      match skip with
      | S k => replace_from k old new s'
      | O =>
          if String.prefix old s
          then new +:+ replace_from (String.length old - 1) old new s'
          else String c (replace_from 0 old new s')
      end
  end.

Definition replace (s old new : string) : string := replace_from 0 old new s.

(** *** Dates *)

(** Timestamps count microseconds since the epoch, the resolution of
    Python's [datetime]; a time distance and a tolerance are measured in
    the same unit. *)
Abbreviation datetime := Z (only parsing).

Definition Qlt_bool (x y : Q) : bool := negb (Qle_bool y x).

(** [datetime.fromtimestamp(s)], [s] in seconds. *)
Definition fromtimestamp (s : Q) : datetime := Qfloor (s * 1000000).

End Py.

(** ** pyhodl/models/tables.py *)

Module Tables.
Import Py.

(** The error of a neighbour: a time distance ([total_seconds()], here in
    the unit of the timestamps), or [float("inf")]. *)
Inductive error : Type :=
  | Finite (s : Z)
  | Inf.

Definition error_le (a b : error) : bool :=
  match a, b with
  | Finite x, Finite y => x <=? y
  | Finite _, Inf => true
  | Inf, Finite _ => false
  | Inf, Inf => true
  end.

Definition error_lt (a b : error) : bool :=
  match a, b with
  | Finite x, Finite y => x <? y
  | Finite _, Inf => true
  | Inf, _ => false
  end.

(** [d[k]] on a dict keyed by dates, where [k] may be [None]. *)
Definition dict_getitem {V} (d : gmap datetime V) (k : option datetime) : result V :=
  match k with
  | Some k' =>
      match d !! k' with
      | Some v => Ok v
      | None => Raise KeyError
      end
  | None => Raise KeyError
  end.

Section DatetimeTable.
(** A row of the database, with its [item["date"]]. *)
Context {Row : Type}.
Variable item_date : Row -> datetime.

(** [pyhodl.utils.parse_datetime] is not part of the sources at hand;
    it is a parameter of the table. *)
Variable parse_datetime : datetime -> datetime.

Record DatetimeTable : Type := {
  content : gmap datetime Row;
  dates : list datetime;
  max_error : Z
}.

(** One step of the dict comprehension [{item["date"]: item for ...}]. *)
Definition insert_row (m : gmap datetime Row) (item : Row) : gmap datetime Row :=
  <[item_date item := item]> m.

(** The keys of a dict, as [for date in self.content] visits them. *)
Definition keys (m : gmap datetime Row) : list datetime := (map_to_list m).*1.

(** [DatetimeTable.__init__], given the rows [get_content()] returns.
    The dict comprehension inserts the rows one after the other, a later
    row replacing an earlier one of the same date. The keys are then
    visited in the map's own order: [sorted] makes the outcome
    independent of it. *)
Definition init (rows : list Row) (max_error_search : Z) : DatetimeTable :=
  let content := foldl insert_row ∅ rows in
  {| content := content;
     dates := sorted id (parse_datetime <$> keys content);
     max_error := max_error_search |}.

(** [DatetimeTable.get_values_on]. A [datetime] is always truthy, so
    [if low] asks whether [low] is not [None]; subtracting a [datetime]
    from [None] raises [TypeError]. *)
Definition get_values_on (self : DatetimeTable) (dt : datetime)
  : result (option Row) :=
  let bisect_insert := Z.of_nat (bisect (dates self) dt) in
  let '(low, high) := (bisect_insert - 1, bisect_insert) in
  low ← (if 0 <? low then Some <$> list_getitem (dates self) low
         else Ok None);
  high ← (if high <? Z.of_nat (length (dates self))
          then Some <$> list_getitem (dates self) high
          else Ok None);
  err_low ← match low with
            | Some l => Ok (Finite (dt - l))
            | None => Ok Inf
            end;
  err_high ← match low with
             | Some _ =>
                 match high with
                 | Some h => Ok (Finite (h - dt))
                 | None => Raise TypeError
                 end
             | None => Ok Inf
             end;
  if error_le err_low err_high && error_lt err_low (Finite (max_error self))
  then Some <$> dict_getitem (content self) low
  else if error_le err_high err_low
          && error_lt err_high (Finite (max_error self))
  then Some <$> dict_getitem (content self) high
  else Ok None.

(** The lookup as the specification words it, to compare [get_values_on]
    with: the candidates are the dates immediately before and immediately
    after the query in [dates]; a neighbour that does not exist has an
    infinite error; the neighbour of smaller distance is returned if that
    distance is at most [max_error], the bound included. *)
Definition preceding (dates : list datetime) (dt : datetime) : option datetime :=
  last (filter (fun d => d <= dt) dates).

Definition following (dates : list datetime) (dt : datetime) : option datetime :=
  head (filter (fun d => dt < d) dates).

Definition distance (dt : datetime) (neighbour : option datetime) : error :=
  match neighbour with
  | Some d => Finite (Z.abs (dt - d))
  | None => Inf
  end.

Definition nearest_within_tolerance (self : DatetimeTable) (dt : datetime)
  : option Row :=
  let before := preceding (dates self) dt in
  let after := following (dates self) dt in
  let nearest :=
    if error_le (distance dt before) (distance dt after) then before
    else after in
  if error_le (distance dt nearest) (Finite (max_error self))
  then nearest ≫= (fun d => content self !! d)
  else None.

(** [DatetimeTable.get_values_between]: the generator, run to its end. A
    date without a row in [content] raises when the iteration reaches
    it. *)
Definition get_values_between (self : DatetimeTable) (since until : datetime)
  : result (list Row) :=
  foldr (fun date rest =>
           if (since <=? date) && (date <=? until) then
             row ← dict_getitem (content self) (Some date);
             rows ← rest;
             Ok (row :: rows)
           else rest)
        (Ok []) (dates self).

End DatetimeTable.

Arguments DatetimeTable : clear implicits.

End Tables.

(** ** Transactions and wallets

    [pyhodl/models/transactions.py] and [pyhodl/core/models/wallets.py]
    are not part of the sources at hand. *)

Module Models.
Import Py.

(** Modelled from the spec: the class [Commission], which is missing, as
    the record [{source_record, coin, amount, date, successful}] built by
    [Commission(raw, coin, amount, date, successful)]. The parsers pass
    what they read, so the fields hold Python values. *)
Record Commission : Type := {
  source_record : json;
  commission_coin : json;
  commission_amount : json;
  commission_date : option datetime;
  commission_successful : bool
}.

(** Modelled from the spec: the class [Transaction], which is missing, as
    the canonical transaction [{buy_coin, buy_amount, sell_coin,
    sell_amount, date, successful, commission, source_exchange}]. *)
Record Transaction : Type := {
  buy_coin : option string;
  buy_amount : Q;
  sell_coin : option string;
  sell_amount : Q;
  date : datetime;
  successful : bool;
  commission : option Commission;
  source_exchange : string
}.

(** Modelled from the spec: [Transaction.get_coins], which is missing:
    the set of non-null coin symbols touched (1 or 2 elements). *)
Definition get_coins (t : Transaction) : gset string :=
  list_to_set (omap id [buy_coin t; sell_coin t]).

(** Modelled from the spec: the class [Wallet], which is missing: a base
    currency and the transactions in arrival order; [Wallet(coin)] is
    empty and [add_transaction] appends. *)
Record Wallet : Type := {
  base_currency : string;
  wallet_transactions : list Transaction
}.

Definition new_wallet (coin : string) : Wallet :=
  {| base_currency := coin; wallet_transactions := [] |}.

Definition add_transaction (t : Transaction) (w : Wallet) : Wallet :=
  {| base_currency := base_currency w;
     wallet_transactions := wallet_transactions w ++ [t] |}.

End Models.

(** ** pyhodl/core/models/exchanges.py *)

Module Exchanges.
Import Py Models.

Record CryptoExchange : Type := {
  transactions : list Transaction;
  exchange_name : string
}.

(** [CryptoExchange.__init__]. *)
Definition init (transactions : list Transaction) (exchange_name : string)
  : result CryptoExchange :=
  match transactions with
  | [] => Raise ValueError
  | _ => Ok {| transactions := transactions; exchange_name := exchange_name |}
  end.

(** [CryptoExchange.get_transactions]: the generator, run to its end. *)
Definition get_transactions (self : CryptoExchange) (rule : Transaction -> bool)
  : list Transaction :=
  List.filter rule (transactions self).

(** [CryptoExchange.get_transactions_count]. *)
Definition get_transactions_count (self : CryptoExchange) : nat :=
  length (transactions self).

(** [CryptoExchange.get_first_transaction]. *)
Definition get_first_transaction (self : CryptoExchange) : result Transaction :=
  first ← list_getitem (transactions self) 0;
  Ok (foldl (fun first transaction =>
               if date transaction <? date first then transaction else first)
            first (transactions self)).

(** [CryptoExchange.get_last_transaction]. *)
Definition get_last_transaction (self : CryptoExchange) : result Transaction :=
  last ← list_getitem (transactions self) 0;
  Ok (foldl (fun last transaction =>
               if date last <? date transaction then transaction else last)
            last (transactions self)).

(** The body of the inner loop of [build_wallets]. *)
Definition add_to_wallet (transaction : Transaction)
  (wallets : gmap string Wallet) (coin : string) : gmap string Wallet :=
  let wallets :=
    if decide (coin ∈ dom wallets) then wallets
    else <[coin := new_wallet coin]> wallets in
  alter (add_transaction transaction) coin wallets.

(** The inner loop of [build_wallets]. The coins of a transaction are a
    set; they are visited in the order [elements] lists them. *)
Definition distribute (wallets : gmap string Wallet) (transaction : Transaction)
  : gmap string Wallet :=
  foldl (add_to_wallet transaction) wallets (elements (get_coins transaction)).

(** [CryptoExchange.build_wallets]. *)
Definition build_wallets (self : CryptoExchange) : gmap string Wallet :=
  let wallets := ∅ in
  let transactions := get_transactions self successful in
  foldl distribute wallets transactions.

(** Does [t] touch [coin]? *)
Definition touches (coin : string) (t : Transaction) : bool :=
  bool_decide (coin ∈ get_coins t).

(** The wallet of [coin] once the transactions [txs] are distributed, if
    there is one. *)
Definition wallet_of (coin : string) (txs : list Transaction) : option Wallet :=
  match List.filter (touches coin) txs with
  | [] => None
  | l => Some {| base_currency := coin; wallet_transactions := l |}
  end.

(** *** Portfolio.get_balances_from_deltas *)

Section Deltas.
(** The numbers that balances are made of, with their addition. *)
Context {V : Type}.
Variable add : V -> V -> V.

(** [delta[VALUE_KEY]]: a number, or the marker [NAN] of [pyhodl.config]
    for a value that is not known. *)
Inductive value : Type :=
  | Number (x : V)
  | NAN.

(** A delta or a balance: [{DATE_TIME_KEY: ..., VALUE_KEY: ...}]. *)
Record delta : Type := {
  date_time : datetime;
  delta_value : value
}.

Definition is_NAN (v : value) : bool :=
  match v with
  | NAN => true
  | Number _ => false
  end.

(** [a + b]: the marker is no number. *)
Definition value_add (a b : value) : result value :=
  match a, b with
  | Number x, Number y => Ok (Number (add x y))
  | _, _ => Raise TypeError
  end.

(** One turn of the loop over [deltas[1:]]. *)
Definition append_balance (balances : result (list delta)) (d : delta)
  : result (list delta) :=
  balances ← balances;
  last ← list_getitem balances (-1);
  v ← value_add (delta_value last) (delta_value d);
  Ok (balances ++ [{| date_time := date_time d; delta_value := v |}]).

Definition get_balances_from_deltas (deltas : list delta)
  : result (list delta) :=
  match deltas with
  | [] => Ok []
  | _ =>
      let deltas :=
        sorted date_time
               (List.filter (fun d => negb (is_NAN (delta_value d))) deltas) in
      first ← list_getitem deltas 0;
      foldl append_balance (Ok [first]) (drop 1 deltas)
  end.

(** The deltas that survive the comprehension, and the order in which
    they are replayed. *)
Definition known (deltas : list delta) : list delta :=
  List.filter (fun d => negb (is_NAN (delta_value d))) deltas.

Definition replayed (deltas : list delta) : list delta :=
  sorted date_time (known deltas).

Definition is_number (d : delta) : Prop := is_NAN (delta_value d) = false.

Definition number_of (d : delta) : option V :=
  match delta_value d with
  | Number x => Some x
  | NAN => None
  end.

(** The numbers among the values of some deltas. *)
Definition numbers (ds : list delta) : list V := omap number_of ds.

(** The sum of a list of numbers, added up from the left; an empty list
    has none. *)
Definition sum_of (vs : list V) : option V :=
  match vs with
  | [] => None
  | v :: vs' => Some (foldl add v vs')
  end.

(** The balances after each of [ds], starting from the balance [acc]. *)
Fixpoint running (acc : V) (ds : list delta) : list delta :=
  match ds with
  | [] => []
  | d :: ds' =>
      match delta_value d with
      | Number x =>
          {| date_time := date_time d; delta_value := Number (add acc x) |}
            :: running (add acc x) ds'
      | NAN => []
      end
  end.

End Deltas.

Arguments value : clear implicits.
Arguments delta : clear implicits.

End Exchanges.

(** ** pyhodl/data/exchanges.py *)

Module Parsers.
Import Py Models.

(** What [get_coins_amounts] returns:
    [(coin_buy, amount_buy, coin_sell, amount_sell)]. *)
Abbreviation coins_amounts := (json * Q * json * Q)%type.

(** The methods of [CryptoParser] that every exchange overrides. *)
Record CryptoParser : Type := {
  is_trade : dict -> result bool;
  is_deposit : dict -> result bool;
  is_withdrawal : dict -> result bool;
  get_coins_amounts : dict -> result coins_amounts;
  get_commission : dict -> result (option Commission);
  get_date : dict -> result (option datetime);
  is_successful : dict -> result bool
}.

(** The classes of a raw record, and the order in which the [if]/[elif]
    chains of [get_coins_amounts], [get_date] and [is_successful] try
    them: the first predicate that holds decides, and a record for which
    none holds falls through. *)
Inductive kind : Type := Trade | Deposit | Withdrawal | Unknown.

Definition classify (p : CryptoParser) (raw : dict) : result kind :=
  trade ← is_trade p raw;
  if trade : bool then Ok Trade
  else
    deposit ← is_deposit p raw;
    if deposit : bool then Ok Deposit
    else
      withdrawal ← is_withdrawal p raw;
      if withdrawal : bool then Ok Withdrawal else Ok Unknown.

(** A predicate holds when it returns [True]. *)
Definition holds (answer : result bool) : Prop := answer = Ok true.

(** The classification the specification asks for: exactly one of the
    three predicates holds. *)
Definition classified_once (p : CryptoParser) (raw : dict) : Prop :=
  (holds (is_trade p raw) /\ ~ holds (is_deposit p raw)
   /\ ~ holds (is_withdrawal p raw))
  \/ (~ holds (is_trade p raw) /\ holds (is_deposit p raw)
      /\ ~ holds (is_withdrawal p raw))
  \/ (~ holds (is_trade p raw) /\ ~ holds (is_deposit p raw)
      /\ holds (is_withdrawal p raw)).

(** [a or b], where [b] is evaluated only if [a] is false. *)
Definition or_else (a b : result bool) : result bool :=
  x ← a; if x : bool then Ok true else b.

Module Binance.
Section Binance.
(** Two builtins that the parser applies to a date are parameters of it.
    [truediv a b] is [a / b] of two [int]s: the float nearest to the
    quotient, [OverflowError] when there is none. [datetime_fromtimestamp]
    is [datetime.fromtimestamp] of the standard library on a float: it
    rounds to a microsecond and raises for a timestamp that the platform
    or a [datetime] cannot hold. *)
Variable truediv : Z -> Z -> result Q.
Variable datetime_fromtimestamp : Q -> result datetime.

Definition is_trade (raw : dict) : result bool := Ok (contains "isBuyer" raw).

Definition is_deposit (raw : dict) : result bool :=
  Ok (contains "insertTime" raw).

Definition is_withdrawal (raw : dict) : result bool :=
  Ok (contains "applyTime" raw).

Definition get_coins_amounts (raw : dict) : result coins_amounts :=
  trade ← is_trade raw;
  if trade : bool then
    market ← getitem raw "symbol";
    market ← as_str AttributeError market;
    let '(coin_buy, coin_sell) :=
      if endswith market "USDT"
      then (Some (replace market "USDT" ""), Some "USDT"%string)
      else (None, None) in
    let '(coin_buy, coin_sell) :=
      (slice_to market (-3), slice_from market (-3)) in
    amount_buy ← getitem raw "qty" ≫= float;
    price ← getitem raw "price" ≫= float;
    let amount_sell := (price * amount_buy)%Q in
    is_buyer ← getitem raw "isBuyer";
    if truthy is_buyer
    then Ok (JStr coin_buy, amount_buy, JStr coin_sell, amount_sell)
    else Ok (JStr coin_sell, amount_sell, JStr coin_buy, amount_buy)
  else
    deposit ← is_deposit raw;
    if deposit : bool then
      asset ← getitem raw "asset";
      amount ← getitem raw "amount" ≫= float;
      Ok (asset, amount, JNone, 0%Q)
    else
      withdrawal ← is_withdrawal raw;
      if withdrawal : bool then
        asset ← getitem raw "asset";
        amount ← getitem raw "amount" ≫= float;
        Ok (JNone, 0%Q, asset, amount)
      else Ok (JNone, 0%Q, JNone, 0%Q).

(** Milliseconds to a date: [datetime.fromtimestamp(int(v) / 1000)]. *)
Definition date_of_ms (v : json) : result (option datetime) :=
  ms ← int v;
  seconds ← truediv ms 1000;
  Some <$> datetime_fromtimestamp seconds.

Definition get_date (raw : dict) : result (option datetime) :=
  trade ← is_trade raw;
  if trade : bool then getitem raw "time" ≫= date_of_ms
  else
    deposit ← is_deposit raw;
    if deposit : bool then getitem raw "insertTime" ≫= date_of_ms
    else
      withdrawal ← is_withdrawal raw;
      if withdrawal : bool then getitem raw "successTime" ≫= date_of_ms
      else Ok None.

(** [get_date] reads the date of [raw] from [field], a number of
    milliseconds: [KeyError] when the record has no such field; when the
    field holds an integer, what the conversion of its thousandth makes
    of it; and a date is returned in no other way. *)
Definition reads_ms (raw : dict) (field : string) : Prop :=
  (contains field raw = false -> get_date raw = Raise KeyError)
  /\ (forall ms, getitem raw field ≫= int = Ok ms ->
                 get_date raw
                 = (seconds ← truediv ms 1000;
                    Some <$> datetime_fromtimestamp seconds))
  /\ (forall d, get_date raw = Ok d ->
                exists ms seconds date,
                  getitem raw field ≫= int = Ok ms
                  /\ truediv ms 1000 = Ok seconds
                  /\ datetime_fromtimestamp seconds = Ok date
                  /\ d = Some date).

Definition is_successful (raw : dict) : result bool :=
  trade ← is_trade raw;
  if trade : bool then Ok (contains "commission" raw)
  else
    deposit ← is_deposit raw;
    if deposit : bool then
      status ← getitem raw "status" ≫= int;
      Ok (status =? 1)
    else
      withdrawal ← is_withdrawal raw;
      if withdrawal : bool then
        status ← getitem raw "status" ≫= int;
        Ok (status =? 6)
      else Ok false.

Definition get_commission (raw : dict) : result (option Commission) :=
  if contains "commissionAsset" raw then
    coin ← getitem raw "commissionAsset";
    amount ← getitem raw "commission" ≫= float;
    date ← get_date raw;
    successful ← is_successful raw;
    Ok (Some {| source_record := JDict raw;
                commission_coin := coin;
                commission_amount := JNum amount;
                commission_date := date;
                commission_successful := successful |})
  else Ok None.

Definition parser : CryptoParser :=
  {| Parsers.is_trade := is_trade;
     Parsers.is_deposit := is_deposit;
     Parsers.is_withdrawal := is_withdrawal;
     Parsers.get_coins_amounts := get_coins_amounts;
     Parsers.get_commission := get_commission;
     Parsers.get_date := get_date;
     Parsers.is_successful := is_successful |}.

End Binance.
End Binance.

Module Bitfinex.

Definition is_trade (raw : dict) : result bool :=
  type ← getitem raw "type";
  Ok (in_strs type ["Sell"; "Buy"]%string).

Definition is_withdrawal (raw : dict) : result bool :=
  type ← getitem raw "type";
  Ok (eq_str type "WITHDRAWAL").

Definition is_deposit (raw : dict) : result bool :=
  type ← getitem raw "type";
  Ok (eq_str type "DEPOSIT").

Definition get_coins_amounts (raw : dict) : result coins_amounts :=
  trade ← is_trade raw;
  if trade : bool then
    coin_buy ← getitem raw "symbol" ≫= as_str TypeError;
    coin_sell ← getitem raw "symbol" ≫= as_str TypeError;
    let '(coin_buy, coin_sell) := (slice_to coin_buy 3, slice_from coin_sell 3) in
    buy_amount ← getitem raw "amount" ≫= float;
    price ← getitem raw "price" ≫= float;
    let sell_amount := (buy_amount * price)%Q in
    type ← getitem raw "type";
    if eq_str type "Buy"
    then Ok (JStr coin_buy, buy_amount, JStr coin_sell, sell_amount)
    else Ok (JStr coin_sell, sell_amount, JStr coin_buy, buy_amount)
  else
    deposit ← is_deposit raw;
    if deposit : bool then
      currency ← getitem raw "currency";
      amount ← getitem raw "amount" ≫= float;
      Ok (currency, amount, JNone, 0%Q)
    else
      withdrawal ← is_withdrawal raw;
      if withdrawal : bool then
        currency ← getitem raw "currency";
        amount ← getitem raw "amount" ≫= float;
        Ok (JNone, 0%Q, currency, amount)
      else Ok (JNone, 0%Q, JNone, 0%Q).

(** [get_fee] returns a pair, or [None] when it falls off its end. *)
Definition get_fee (raw : dict) : result (option (json * Q)) :=
  trade ← is_trade raw;
  if trade : bool then
    fee_currency ← getitem raw "fee_currency";
    fee_amount ← getitem raw "fee_amount" ≫= float;
    Ok (Some (fee_currency, Qabs fee_amount))
  else
    deposit_or_trade ← or_else (is_deposit raw) (is_trade raw);
    if deposit_or_trade : bool then
      currency ← getitem raw "currency";
      fee ← getitem raw "fee" ≫= float;
      Ok (Some (currency, Qabs fee))
    else Ok None.

Definition get_date (raw : dict) : result (option datetime) :=
  timestamp ← getitem raw "timestamp" ≫= float;
  Ok (Some (fromtimestamp (inject_Z (trunc timestamp)))).

Definition is_successful (raw : dict) : result bool :=
  trade ← is_trade raw;
  if trade : bool then
    fee_amount ← getitem raw "fee_amount" ≫= float;
    Ok (Qle_bool fee_amount 0)
  else
    deposit_or_withdrawal ← or_else (is_deposit raw) (is_withdrawal raw);
    if deposit_or_withdrawal : bool then
      status ← getitem raw "status";
      Ok (eq_str status "COMPLETED")
    else Ok false.

(** [fee_coin, amount = self.get_fee(raw)]: unpacking [None] raises
    [TypeError]. *)
Definition get_commission (raw : dict) : result (option Commission) :=
  fee ← get_fee raw;
  '(fee_coin, amount) ← match fee with
                        | Some fee => Ok fee
                        | None => Raise TypeError
                        end;
  if truthy fee_coin then
    date ← get_date raw;
    successful ← is_successful raw;
    Ok (Some {| source_record := JDict raw;
                commission_coin := fee_coin;
                commission_amount := JNum amount;
                commission_date := date;
                commission_successful := successful |})
  else Ok None.

Definition parser : CryptoParser :=
  {| Parsers.is_trade := is_trade;
     Parsers.is_deposit := is_deposit;
     Parsers.is_withdrawal := is_withdrawal;
     Parsers.get_coins_amounts := get_coins_amounts;
     Parsers.get_commission := get_commission;
     Parsers.get_date := get_date;
     Parsers.is_successful := is_successful |}.

End Bitfinex.

(** [ciso8601.parse_datetime], an external library, is a parameter of the
    two parsers that read ISO 8601 dates. *)
Module Coinbase.
Section Coinbase.
Variable ciso8601_parse_datetime : json -> result datetime.

(** [raw[field]["amount"]] as a float. *)
Definition amount_of (raw : dict) (field : string) : result Q :=
  v ← getitem raw field;
  subscript v "amount" ≫= float.

Definition currency_of (raw : dict) (field : string) : result json :=
  v ← getitem raw field;
  subscript v "currency".

Definition is_trade (raw : dict) : result bool :=
  type ← getitem raw "type";
  Ok (in_strs type ["buy"; "sell"]%string).

Definition is_withdrawal (raw : dict) : result bool :=
  amount ← amount_of raw "amount";
  native_amount ← amount_of raw "native_amount";
  Ok (Qlt_bool amount 0 && Qlt_bool native_amount 0).

Definition is_deposit (raw : dict) : result bool :=
  amount ← amount_of raw "amount";
  native_amount ← amount_of raw "native_amount";
  Ok (Qle_bool 0 amount && Qle_bool 0 native_amount).

Definition get_coins_amounts (raw : dict) : result coins_amounts :=
  trade ← is_trade raw;
  if trade : bool then
    coin ← currency_of raw "amount";
    currency ← currency_of raw "native_amount";
    if negb (json_eqb coin currency) then
      amount_buy ← amount_of raw "native_amount";
      let '(coin_buy, amount_buy) := (currency, Qabs amount_buy) in
      amount_sell ← amount_of raw "amount";
      let '(coin_sell, amount_sell) := (coin, Qabs amount_sell) in
      type ← getitem raw "type";
      if eq_str type "sell"
      then Ok (coin_buy, amount_buy, coin_sell, amount_sell)
      else Ok (coin_sell, amount_sell, coin_buy, amount_buy)
    else Ok (JNone, 0%Q, JNone, 0%Q)
  else
    deposit ← is_deposit raw;
    if deposit : bool then
      currency ← currency_of raw "amount";
      amount ← amount_of raw "amount";
      Ok (currency, Qabs amount, JNone, 0%Q)
    else
      withdrawal ← is_withdrawal raw;
      if withdrawal : bool then
        currency ← currency_of raw "amount";
        amount ← amount_of raw "amount";
        Ok (JNone, 0%Q, currency, Qabs amount)
      else Ok (JNone, 0%Q, JNone, 0%Q).

Definition get_date (raw : dict) : result (option datetime) :=
  Some <$> (getitem raw "updated_at" ≫= ciso8601_parse_datetime).

Definition is_successful (raw : dict) : result bool :=
  status ← getitem raw "status";
  Ok (eq_str status "completed").

Definition get_commission (raw : dict) : result (option Commission) :=
  try_except
    (commission_data ← getitem raw "network";
     fee ← subscript commission_data "transaction_fee";
     currency ← subscript fee "currency";
     fee ← subscript commission_data "transaction_fee";
     amount ← subscript fee "amount";
     date ← get_date raw;
     status ← subscript commission_data "status";
     Ok (Some {| source_record := commission_data;
                 commission_coin := currency;
                 commission_amount := amount;
                 commission_date := date;
                 commission_successful := eq_str status "confirmed" |}))
    None.

Definition parser : CryptoParser :=
  {| Parsers.is_trade := is_trade;
     Parsers.is_deposit := is_deposit;
     Parsers.is_withdrawal := is_withdrawal;
     Parsers.get_coins_amounts := get_coins_amounts;
     Parsers.get_commission := get_commission;
     Parsers.get_date := get_date;
     Parsers.is_successful := is_successful |}.

End Coinbase.
End Coinbase.

(** [GdaxParser] derives from [CoinbaseParser] and overrides every method
    modelled here. *)
Module Gdax.
Section Gdax.
Variable ciso8601_parse_datetime : json -> result datetime.

Definition get_coins_amounts (raw : dict) : result coins_amounts :=
  amount ← getitem raw "amount" ≫= float;
  coin ← getitem raw "currency";
  if Qle_bool 0 amount
  then Ok (coin, Qabs amount, JNone, 0%Q)
  else Ok (JNone, 0%Q, coin, Qabs amount).

Definition is_trade (raw : dict) : result bool :=
  getitem raw "details" ≫= py_in "product_id".

Definition get_transfer_type (raw : dict) : result json :=
  type ← getitem raw "type";
  if eq_str type "transfer" then
    details ← getitem raw "details";
    subscript details "transfer_type"
  else Ok JNone.

Definition is_withdrawal (raw : dict) : result bool :=
  transfer_type ← get_transfer_type raw;
  Ok (eq_str transfer_type "withdraw").

Definition get_commission (raw : dict) : result (option Commission) :=
  Ok None.

Definition get_date (raw : dict) : result (option datetime) :=
  Some <$> (getitem raw "created_at" ≫= ciso8601_parse_datetime).

Definition is_deposit (raw : dict) : result bool :=
  transfer_type ← get_transfer_type raw;
  Ok (eq_str transfer_type "deposit").

Definition is_successful (raw : dict) : result bool := Ok true.

Definition parser : CryptoParser :=
  {| Parsers.is_trade := is_trade;
     Parsers.is_deposit := is_deposit;
     Parsers.is_withdrawal := is_withdrawal;
     Parsers.get_coins_amounts := get_coins_amounts;
     Parsers.get_commission := get_commission;
     Parsers.get_date := get_date;
     Parsers.is_successful := is_successful |}.

End Gdax.
End Gdax.

(** *** Extraction by class

    The classification as the adapters have it, to compare
    [get_coins_amounts] with. The class of a record is the first of trade,
    deposit and withdrawal whose predicate returns true ([classify]); the
    class alone decides by which rule the coins and amounts are read, and
    a record of no class yields the empty extraction. *)
Record rules : Type := {
  of_trade : dict -> result coins_amounts;
  of_deposit : dict -> result coins_amounts;
  of_withdrawal : dict -> result coins_amounts
}.

Definition nothing : coins_amounts := (JNone, 0%Q, JNone, 0%Q).

Definition extract_by_class (p : CryptoParser) (r : rules) (raw : dict)
  : result coins_amounts :=
  class ← classify p raw;
  match class with
  | Trade => of_trade r raw
  | Deposit => of_deposit r raw
  | Withdrawal => of_withdrawal r raw
  | Unknown => Ok nothing
  end.

(** One side only: a coin that comes in is bought for nothing, a coin that
    goes out is sold for nothing. *)
Definition incoming (coin : result json) (amount : result Q)
  : result coins_amounts :=
  coin ← coin; amount ← amount; Ok (coin, amount, JNone, 0%Q).

Definition outgoing (coin : result json) (amount : result Q)
  : result coins_amounts :=
  coin ← coin; amount ← amount; Ok (JNone, 0%Q, coin, amount).

(** Both sides: [base] is bought for [quote], or sold for it. *)
Definition exchanged (buys_base : bool) (base : json) (base_amount : Q)
  (quote : json) (quote_amount : Q) : coins_amounts :=
  if buys_base then (base, base_amount, quote, quote_amount)
  else (quote, quote_amount, base, base_amount).

(** Binance: the market symbol is cut three characters from its end, the
    buyer buys what comes first; deposits and withdrawals name an asset. *)
Definition binance_rules : rules :=
  {| of_trade raw :=
       market ← getitem raw "symbol" ≫= as_str AttributeError;
       qty ← getitem raw "qty" ≫= float;
       price ← getitem raw "price" ≫= float;
       is_buyer ← getitem raw "isBuyer";
       Ok (exchanged (truthy is_buyer)
             (JStr (slice_to market (-3))) qty
             (JStr (slice_from market (-3))) (price * qty));
     of_deposit raw :=
       incoming (getitem raw "asset") (getitem raw "amount" ≫= float);
     of_withdrawal raw :=
       outgoing (getitem raw "asset") (getitem raw "amount" ≫= float) |}.

(** Bitfinex: the market symbol is cut three characters from its start, a
    "Buy" buys what comes first; deposits and withdrawals name a
    currency. *)
Definition bitfinex_rules : rules :=
  {| of_trade raw :=
       market ← getitem raw "symbol" ≫= as_str TypeError;
       amount ← getitem raw "amount" ≫= float;
       price ← getitem raw "price" ≫= float;
       type ← getitem raw "type";
       Ok (exchanged (eq_str type "Buy")
             (JStr (slice_to market 3)) amount
             (JStr (slice_from market 3)) (amount * price));
     of_deposit raw :=
       incoming (getitem raw "currency") (getitem raw "amount" ≫= float);
     of_withdrawal raw :=
       outgoing (getitem raw "currency") (getitem raw "amount" ≫= float) |}.

(** Coinbase: a trade exchanges the coin of "amount" and the currency of
    "native_amount", a "sell" buying the currency, unless the two are the
    same (a fiat log, from which nothing is read); all amounts are taken
    without their sign. *)
Definition coinbase_rules : rules :=
  {| of_trade raw :=
       coin ← Coinbase.currency_of raw "amount";
       currency ← Coinbase.currency_of raw "native_amount";
       if json_eqb coin currency then Ok nothing
       else
         native_amount ← Coinbase.amount_of raw "native_amount";
         amount ← Coinbase.amount_of raw "amount";
         type ← getitem raw "type";
         Ok (exchanged (eq_str type "sell")
               currency (Qabs native_amount) coin (Qabs amount));
     of_deposit raw :=
       incoming (Coinbase.currency_of raw "amount")
                (Qabs <$> Coinbase.amount_of raw "amount");
     of_withdrawal raw :=
       outgoing (Coinbase.currency_of raw "amount")
                (Qabs <$> Coinbase.amount_of raw "amount") |}.

(** GDAX takes no class into account: one side, chosen by the sign of
    "amount". *)
Definition by_sign (raw : dict) : result coins_amounts :=
  amount ← getitem raw "amount" ≫= float;
  if Qle_bool 0 amount
  then incoming (getitem raw "currency") (Ok (Qabs amount))
  else outgoing (getitem raw "currency") (Ok (Qabs amount)).

End Parsers.

(** ** pyhodl/utils/misc.py *)

Module Misc.
Import Py.

(** The functions of this file divide: beside the exceptions of [exn] they
    can raise [ZeroDivisionError]. *)
Inductive failure : Type :=
  | Exception (e : exn)
  | ZeroDivisionError.

Inductive outcome (A : Type) : Type :=
  | Return (a : A)
  | Fail (f : failure).
Arguments Return {A} a.
Arguments Fail {A} f.

#[export] Instance outcome_ret : MRet outcome := fun A a => Return a.
#[export] Instance outcome_bind : MBind outcome := fun A B f m =>
  match m with
  | Return a => f a
  | Fail e => Fail e
  end.

Definition lift {A} (m : result A) : outcome A :=
  match m with
  | Ok a => Return a
  | Raise e => Fail (Exception e)
  end.



(** [v is None]. *)
Definition is_None (v : json) : bool :=
  match v with
  | JNone => true
  | _ => false
  end.



(** [get_relative_delta]: the arguments are converted first, and the test
    for [None] is made on the floats. *)
Definition get_relative_delta (new last : json) : outcome Q :=
  new ← lift (float new);
  last ← lift (float last);
  if is_None (JNum new) || is_None (JNum last) then Return 0%Q
  else Return (new - last)%Q.

Section Coordinates.
(** The values of the x-axis: anything that can be the key of a dict. *)
Context {X : Type} `{EqDecision X}.

(** One turn of the first loop of [remove_same_coordinates], on a dict
    that keeps its keys in the order of their insertion: a new key comes
    last, with a bucket of one value; the bucket of a known key grows. *)
Fixpoint bucket_add (x_coord : X) (y_coord : Q)
  (coordinates : list (X * list Q)) : list (X * list Q) :=
  match coordinates with
  | [] => [(x_coord, [y_coord])]
  | (x, bucket) :: rest =>
      if decide (x_coord = x) then (x, bucket ++ [y_coord]) :: rest
      else (x, bucket) :: bucket_add x_coord y_coord rest
  end.

(** [np.average] of a bucket, which is never empty. *)
Definition average (bucket : list Q) : Q :=
  (foldr Qplus 0 bucket / inject_Z (Z.of_nat (length bucket)))%Q.

Definition remove_same_coordinates (x_data : list X) (y_val : list Q)
  : list X * list Q :=
  let coordinates :=
    foldl (fun coordinates point => bucket_add point.1 point.2 coordinates)
          [] (zip x_data y_val) in
  let coordinates :=
    (fun entry : X * list Q => (entry.1, average entry.2)) <$> coordinates in
  (coordinates.*1, coordinates.*2).

(** The keys of that dict: the values of [xs] in the order in which they
    first occur. *)
Definition first_occurrences (xs : list X) : list X :=
  foldl (fun keys x => if decide (x ∈ keys) then keys else keys ++ [x]) [] xs.

(** The bucket of [x]: the second coordinates of the points whose first
    coordinate is [x], in their order. *)
Definition bucket_of (x : X) (points : list (X * Q)) : list Q :=
  (filter (fun point => point.1 = x) points).*2.

End Coordinates.

End Misc.

(** ** Sample data *)

Module Samples.
Import Py Models Tables Exchanges Parsers.

(** Tables of three and of two rows. *)

Definition rows3 : list (Z * string) :=
  [(200, "c"); (0, "a"); (100, "b")]%string.

Definition rows2 : list (Z * string) := [(100, "a"); (200, "b")]%string.

(** The table of [rows] with tolerance [e]; the rows carry canonical
    timestamps. *)
Definition table (rows : list (Z * string)) (e : Z) : DatetimeTable (Z * string) :=
  Tables.init fst id rows e.

(** The table of [rows] when [parse_datetime] does not return the dates
    as the rows hold them: here it moves every date by 1000. *)
Definition shifted_table (rows : list (Z * string)) (e : Z)
  : DatetimeTable (Z * string) :=
  Tables.init fst (fun date => date + 1000) rows e.

(** Integer deltas. *)

Definition delta_of (t v : Z) : delta Z :=
  {| date_time := t; delta_value := Number v |}.

Definition unknown_at (t : Z) : delta Z :=
  {| date_time := t; delta_value := NAN |}.

(** Raw records. *)

(** A Coinbase purchase: the type is "buy" and both amounts are
    positive. *)
Definition coinbase_buy : dict :=
  [("type", JStr "buy");
   ("status", JStr "completed");
   ("amount", JDict [("amount", JStr "1.00000000"); ("currency", JStr "BTC")]);
   ("native_amount",
     JDict [("amount", JStr "9500.00"); ("currency", JStr "USD")]);
   ("updated_at", JStr "2018-01-01T00:00:00Z")]%string.

(** A Binance record with none of the marker fields. *)
Definition binance_unmarked : dict :=
  [("asset", JStr "BTC"); ("amount", JStr "1.5"); ("status", JNum 1)]%string.

(** A Binance withdrawal that was applied for and has not succeeded
    yet. *)
Definition binance_applied : dict :=
  [("asset", JStr "BTC");
   ("amount", JStr "0.5");
   ("applyTime", JNum 1514764800000);
   ("status", JNum 2)]%string.

(** A Binance purchase on the market BTCUSDT. *)
Definition binance_btcusdt : dict :=
  [("symbol", JStr "BTCUSDT");
   ("qty", JStr "2.00000000");
   ("price", JStr "10000.50000000");
   ("isBuyer", JBool true);
   ("time", JNum 1514764800000);
   ("commission", JStr "0.00200000");
   ("commissionAsset", JStr "BTC")]%string.

(** A completed Bitfinex withdrawal. *)
Definition bitfinex_withdrawal : dict :=
  [("type", JStr "WITHDRAWAL");
   ("currency", JStr "BTC");
   ("amount", JStr "1.0");
   ("fee", JStr "0.0005");
   ("status", JStr "COMPLETED");
   ("timestamp", JStr "1514764800.0")]%string.

(** A Bitfinex trade without fee fields. *)
Definition bitfinex_trade_no_fee : dict :=
  [("type", JStr "Buy");
   ("symbol", JStr "BTCUSD");
   ("amount", JStr "1.0");
   ("price", JStr "9500.0");
   ("timestamp", JStr "1514764800.0")]%string.

(** A Bitfinex trade with a fee of the given amount. *)
Definition bitfinex_trade (fee_amount : string) : dict :=
  [("type", JStr "Sell");
   ("symbol", JStr "BTCUSD");
   ("amount", JStr "1.0");
   ("price", JStr "9500.0");
   ("fee_currency", JStr "USD");
   ("fee_amount", JStr fee_amount);
   ("timestamp", JStr "1514764800.0")]%string.

(** A transaction read from a trade, with the given success flag. *)
Definition sale (flag : bool) : Transaction :=
  {| buy_coin := Some "USD"%string; buy_amount := 9500;
     sell_coin := Some "BTC"%string; sell_amount := 1;
     date := 1514764800000000; successful := flag;
     commission := None; source_exchange := "bitfinex" |}.

(** A completed Bitfinex deposit, with a fee written as a negative
    amount. *)
Definition bitfinex_deposit : dict :=
  [("type", JStr "DEPOSIT");
   ("currency", JStr "BTC");
   ("amount", JStr "1.0");
   ("fee", JStr "-0.0005");
   ("status", JStr "COMPLETED");
   ("timestamp", JStr "1514764800.0")]%string.

(** A Coinbase record that is no purchase and no sale, with amounts of
    opposite sign. *)
Definition coinbase_mixed : dict :=
  [("type", JStr "send");
   ("status", JStr "completed");
   ("amount", JDict [("amount", JStr "0.5"); ("currency", JStr "BTC")]);
   ("native_amount",
     JDict [("amount", JStr "-4750.00"); ("currency", JStr "USD")])]%string.

(** A deposit of one coin at the given date, and an exchange of four of
    them. *)
Definition deposit_at (d : Z) : Transaction :=
  {| buy_coin := Some "BTC"%string; buy_amount := 1;
     sell_coin := None; sell_amount := 0;
     date := d; successful := true;
     commission := None; source_exchange := "binance" |}.

(** Stand-ins for the two builtins of the Binance parser, which convert
    the dates of the samples without rounding. *)
Definition exact_truediv (a b : Z) : result Q :=
  Ok (inject_Z a / inject_Z b)%Q.

Definition exact_fromtimestamp (s : Q) : result datetime :=
  Ok (fromtimestamp s).

Definition four_deposits : CryptoExchange :=
  {| transactions := [deposit_at 3; deposit_at 1; deposit_at 2; deposit_at 1];
     exchange_name := "binance" |}.

End Samples.

(** * Properties *)

(** ** [sorted] and [bisect] *)

Module PyFacts.
Import Py.

Section Sorted.
Context {A : Type} (key : A -> Z).

Abbreviation key_le := (key_le key).

Lemma insert_by_Permutation x l : insert_by key x l ≡ₚ x :: l.
Proof.
  induction l as [|y l IH]; simpl; [done|].
  destruct (key x <=? key y); [done|].
  rewrite IH. apply Permutation_swap.
Qed.

Lemma sorted_Permutation l : sorted key l ≡ₚ l.
Proof.
  induction l as [|x l IH]; simpl; [done|].
  unfold sorted in *. simpl. rewrite insert_by_Permutation. by rewrite IH.
Qed.

Lemma sorted_length l : length (sorted key l) = length l.
Proof. by rewrite sorted_Permutation. Qed.

Lemma insert_by_HdRel a x l :
  key_le a x -> HdRel key_le a l -> HdRel key_le a (insert_by key x l).
Proof.
  intros Hax Hal. destruct l as [|y l]; simpl; [by constructor|].
  destruct (key x <=? key y); constructor; [done|].
  by inversion Hal.
Qed.

Lemma insert_by_Sorted x l :
  Sorted key_le l -> Sorted key_le (insert_by key x l).
Proof.
  induction 1 as [|y l Hl IH Hhd]; simpl; [by repeat constructor|].
  destruct (key x <=? key y) eqn:E.
  - constructor; [by constructor|]. constructor. unfold key_le. lia.
  - constructor; [done|]. apply insert_by_HdRel; [|done]. unfold key_le. lia.
Qed.

Lemma sorted_Sorted l : Sorted key_le (sorted key l).
Proof.
  induction l as [|x l IH]; [constructor|]. by apply insert_by_Sorted.
Qed.

#[local] Instance key_le_trans : Transitive key_le.
Proof. unfold key_le. intros a b c. lia. Qed.

Lemma sorted_StronglySorted l : StronglySorted key_le (sorted key l).
Proof. apply Sorted_StronglySorted; [apply _|]. apply sorted_Sorted. Qed.

(** Two entries of different keys can be inserted in either order. *)
Lemma insert_by_comm x y l :
  key x ≠ key y ->
  insert_by key x (insert_by key y l) = insert_by key y (insert_by key x l).
Proof.
  intros Hxy. induction l as [|z l IH]; simpl.
  - destruct (Z.leb_spec (key x) (key y)), (Z.leb_spec (key y) (key x));
      try done; lia.
  - destruct (Z.leb_spec (key y) (key z)), (Z.leb_spec (key x) (key z)); simpl;
      repeat match goal with
             | |- context [?a <=? ?b] => destruct (Z.leb_spec a b)
             end; try done; try lia.
    by rewrite IH.
Qed.

(** Where no two entries share a key, the order of the input is lost. *)
Lemma sorted_Permutation_eq l l' :
  l ≡ₚ l' -> NoDup (key <$> l) -> sorted key l = sorted key l'.
Proof.
  induction 1 as [|x l l' Hp IH|x y l|l l' l'' Hp1 IH1 Hp2 IH2];
    intros Hnd; unfold sorted in *; simpl in *.
  - done.
  - apply NoDup_cons in Hnd as [_ Hnd]. by rewrite IH.
  - apply insert_by_comm. apply NoDup_cons in Hnd as [Hy _].
    intros E. apply Hy. rewrite E. left.
  - rewrite IH1 by done. apply IH2. by rewrite <- Hp1.
Qed.

End Sorted.

(** For dates themselves the order of the input never matters. *)
Lemma sorted_id_Permutation_eq (l l' : list Z) :
  l ≡ₚ l' -> sorted id l = sorted id l'.
Proof.
  intros Hp. apply (Sorted_unique (key_le id)).
  - apply sorted_Sorted.
  - apply sorted_Sorted.
  - by rewrite !sorted_Permutation.
Qed.

Lemma sorted_id_strict (l : list Z) :
  NoDup l -> StronglySorted Z.lt (sorted id l).
Proof.
  intros Hnd.
  assert (Hnd' : NoDup (sorted id l)) by by rewrite sorted_Permutation.
  pose proof (sorted_StronglySorted id l) as Hs.
  induction Hs as [|x s Hs IH Hall]; [constructor|].
  apply NoDup_cons in Hnd' as [Hx Hnd']. constructor; [by apply IH|].
  rewrite Forall_forall in *. intros y Hy.
  specialize (Hall y Hy). unfold key_le, id in Hall.
  assert (x ≠ y) by (intros ->; done). lia.
Qed.

(** *** Binary search *)



Lemma bisect_loop_bounds (a : list Z) (x : Z) (lo hi : nat) :
  (lo <= hi)%nat -> (lo <= bisect_loop a x lo hi <= hi)%nat.
Proof.
  funelim (bisect_loop a x lo hi); intros Hb;
    try (assert (((lo + hi) / 2 < hi)%nat)
           by (apply Nat.Div0.div_lt_upper_bound; lia);
         assert ((lo <= (lo + hi) / 2)%nat)
           by (apply Nat.div_le_lower_bound; lia));
    lia.
Qed.

Lemma bisect_le_length (a : list Z) (x : Z) : (bisect a x <= length a)%nat.
Proof. apply bisect_loop_bounds. lia. Qed.



End PyFacts.

(** ** DatetimeTable *)

Module TablesFacts.
Import Py PyFacts Tables Samples.

Lemma list_getitem_lookup {A} (l : list A) (i : nat) (x : A) :
  l !! i = Some x -> list_getitem l (Z.of_nat i) = Ok x.
Proof.
  intros Hx. pose proof (lookup_lt_Some _ _ _ Hx) as Hlt.
  unfold list_getitem.
  destruct (Z.ltb_spec (Z.of_nat i) 0); [lia|].
  destruct (Z.leb_spec 0 (Z.of_nat i)); [|lia].
  destruct (Z.ltb_spec (Z.of_nat i) (Z.of_nat (length l))); [|lia].
  simpl. by rewrite Nat2Z.id, Hx.
Qed.

Lemma list_getitem_in_range {A} (l : list A) (i : nat) :
  (i < length l)%nat -> exists x, l !! i = Some x /\ list_getitem l (Z.of_nat i) = Ok x.
Proof.
  intros Hlt. destruct (lookup_lt_is_Some_2 l i Hlt) as [x Hx].
  exists x. split; [done|]. by apply list_getitem_lookup.
Qed.

Section DatetimeTable.
Context {Row : Type}.
Variable item_date : Row -> datetime.
Variable parse_datetime : datetime -> datetime.

Abbreviation init := (init item_date parse_datetime).
Abbreviation insert_row := (insert_row item_date).

(** [get_values_on] by the insertion point [i]: the neighbour before the
    query is read only if [i >= 2], and then the neighbour after it must
    exist. *)
Lemma get_values_on_eq (t : DatetimeTable Row) (dt : Z) :
  get_values_on t dt =
  let i := bisect (dates t) dt in
  match (if decide (2 <= i)%nat then dates t !! (i - 1)%nat else None) with
  | None => Ok None
  | Some l =>
      match dates t !! i with
      | None => Raise TypeError
      | Some h =>
          if (dt - l <=? h - dt) && (dt - l <? max_error t)
          then Some <$> dict_getitem (content t) (Some l)
          else if (h - dt <=? dt - l) && (h - dt <? max_error t)
          then Some <$> dict_getitem (content t) (Some h)
          else Ok None
      end
  end.
Proof.
  unfold get_values_on. cbv zeta.
  pose proof (bisect_le_length (dates t) dt) as Hle.
  set (i := bisect (dates t) dt) in *.
  assert (Hhigh :
    (if Z.of_nat i <? Z.of_nat (length (dates t))
     then Some <$> list_getitem (dates t) (Z.of_nat i)
     else Ok None) = Ok (dates t !! i)).
  { destruct (Z.ltb_spec (Z.of_nat i) (Z.of_nat (length (dates t)))).
    - destruct (list_getitem_in_range (dates t) i) as (h & Hh & ->); [lia|].
      by rewrite Hh.
    - by rewrite (lookup_ge_None_2 (dates t) i) by lia. }
  rewrite Hhigh. clear Hhigh.
  destruct (decide (2 <= i)%nat) as [Hi|Hi].
  - destruct (Z.ltb_spec 0 (Z.of_nat i - 1)); [|lia].
    replace (Z.of_nat i - 1) with (Z.of_nat (i - 1)) by lia.
    destruct (list_getitem_in_range (dates t) (i - 1)) as (l & Hl & ->); [lia|].
    rewrite Hl. simpl. by destruct (dates t !! i).
  - destruct (Z.ltb_spec 0 (Z.of_nat i - 1)); [lia|].
    simpl. by destruct (dates t !! i).
Qed.

(** With the insertion point at the front, or just after the first date,
    nothing is found, however near the neighbours are. *)
Lemma get_values_on_front (t : DatetimeTable Row) (dt : Z) :
  (bisect (dates t) dt <= 1)%nat -> get_values_on t dt = Ok None.
Proof.
  intros Hi. rewrite get_values_on_eq. cbv zeta.
  by destruct (decide (2 <= bisect (dates t) dt)%nat); [lia|].
Qed.

(** With the insertion point at the end the subtraction from [None]
    raises. *)
Lemma get_values_on_back (t : DatetimeTable Row) (dt : Z) :
  (2 <= bisect (dates t) dt)%nat -> bisect (dates t) dt = length (dates t) ->
  get_values_on t dt = Raise TypeError.
Proof.
  intros Hi Hlen. rewrite get_values_on_eq. cbv zeta.
  destruct (decide (2 <= bisect (dates t) dt)%nat); [|lia].
  destruct (lookup_lt_is_Some_2 (dates t) (bisect (dates t) dt - 1)) as [d ->];
    [lia|].
  by rewrite (lookup_ge_None_2 (dates t) (bisect (dates t) dt)) by lia.
Qed.


Lemma foldl_insert_row_is_Some rows (m : gmap Z Row) k :
  is_Some (foldl insert_row m rows !! k) <->
  is_Some (m !! k) \/ exists r, r ∈ rows /\ item_date r = k.
Proof.
  revert m. induction rows as [|item rows IH]; intros m; simpl.
  - split; [by left|]. intros [H|(r & Hr & _)]; [done|by inversion Hr].
  - rewrite IH. unfold insert_row. rewrite lookup_insert_is_Some. split.
    + intros [[E|[_ H]]|(r & Hr & E)].
      * right. exists item. split; [left|done].
      * by left.
      * right. exists r. split; [by right|done].
    + intros [H|(r & Hr & E)].
      * destruct (decide (item_date item = k)); [by left; left|by left; right].
      * apply elem_of_cons in Hr as [->|Hr]; [by left; left|].
        right. by exists r.
Qed.

(** The keys of [content] are the dates of the rows. *)
Lemma content_is_Some rows e k :
  is_Some (content (init rows e) !! k) <-> exists r, r ∈ rows /\ item_date r = k.
Proof.
  simpl. fold insert_row. rewrite foldl_insert_row_is_Some, lookup_empty.
  split; [|by right]. intros [[? H]|H]; [done|done].
Qed.


Lemma elem_of_keys (m : gmap Z Row) k : k ∈ keys m <-> is_Some (m !! k).
Proof.
  unfold keys. rewrite list_elem_of_fmap. split.
  - intros ([k' r] & -> & Hin). apply elem_of_map_to_list in Hin. by exists r.
  - intros [r Hr]. exists (k, r). split; [done|]. by apply elem_of_map_to_list.
Qed.

(** Whatever [parse_datetime] does, [dates] is ascending and holds the
    parsed keys, as often as they occur. *)
Lemma dates_parsed_keys rows e :
  let t := init rows e in
  StronglySorted Z.le (dates t)
  /\ dates t ≡ₚ parse_datetime <$> keys (content t).
Proof.
  simpl. split.
  - apply (sorted_StronglySorted id).
  - apply sorted_Permutation.
Qed.

(** Where [parse_datetime] turns a key into a date that is no key,
    [dates] holds a date without a row: it is not the list of the keys. *)
Lemma dates_parsed_not_key rows e k :
  is_Some (content (init rows e) !! k) ->
  content (init rows e) !! parse_datetime k = None ->
  parse_datetime k ∈ dates (init rows e)
  /\ dates (init rows e) <> sorted id (keys (content (init rows e))).
Proof.
  intros Hk Hnone.
  assert (Hin : parse_datetime k ∈ dates (init rows e)).
  { destruct (dates_parsed_keys rows e) as [_ ->].
    apply list_elem_of_fmap_2. by apply elem_of_keys. }
  split; [done|]. intros E. rewrite E, sorted_Permutation in Hin.
  apply elem_of_keys in Hin as [r Hr]. congruence.
Qed.

Section Canonical.
(** The keys are canonical timestamps: [parse_datetime] returns them as
    they are. [get_values_on] relies on it when it looks a member of
    [dates] up in [content]. *)
Variable rows : list Row.
Variable max_error_search : Z.
Hypothesis parse_canonical :
  forall r, r ∈ rows -> parse_datetime (item_date r) = item_date r.

Lemma dates_keys :
  let t := init rows max_error_search in
  dates t = sorted id (keys (content t)).
Proof.
  simpl. f_equal. fold insert_row.
  set (m := foldl insert_row ∅ rows).
  assert (Hm : forall k, k ∈ keys m -> parse_datetime k = k).
  { intros k Hk. apply elem_of_keys in Hk.
    apply (content_is_Some rows max_error_search) in Hk as (r & Hr & <-).
    by apply parse_canonical. }
  unfold keys in *. induction ((map_to_list m).*1) as [|k l IH]; [done|].
  simpl. rewrite Hm by left. f_equal. apply IH. intros k' Hk'. apply Hm. by right.
Qed.

Lemma dates_strict :
  StronglySorted Z.lt (dates (init rows max_error_search)).
Proof.
  rewrite dates_keys. apply sorted_id_strict. apply NoDup_fst_map_to_list.
Qed.

Lemma dates_NoDup : NoDup (dates (init rows max_error_search)).
Proof.
  rewrite dates_keys, sorted_Permutation. apply NoDup_fst_map_to_list.
Qed.

Lemma elem_of_dates d :
  d ∈ dates (init rows max_error_search)
  <-> is_Some (content (init rows max_error_search) !! d).
Proof. rewrite dates_keys, sorted_Permutation. apply elem_of_keys. Qed.


(** With canonical keys the invariant of the table holds: [dates] is the
    ascending list of the keys of [content] without duplicates: it is
    strictly increasing, every member of [dates] indexes a row of
    [content], and every key of [content] is a member of [dates]. *)
Lemma dates_sorted_keys_of_content :
  let t := init rows max_error_search in
  dates t = sorted id (keys (content t))
  /\ StronglySorted Z.lt (dates t)
  /\ NoDup (dates t)
  /\ (forall d, d ∈ dates t <-> is_Some (content t !! d)).
Proof.
  cbv zeta. split; [apply dates_keys|]. split; [apply dates_strict|].
  split; [apply dates_NoDup|]. apply elem_of_dates.
Qed.



End Canonical.

End DatetimeTable.

(** C1, where it fails. The rows are dated 0, 100 and 200, and
    [parse_datetime] does not return the dates as the rows hold them (it
    moves them by 1000): [content] is keyed by the dates of the rows,
    [dates] holds the parsed ones. No member of [dates] indexes a row of
    [content], no key of [content] is a member of [dates], and the two
    lookups, which index [content] by members of [dates], raise
    [KeyError]. *)
Theorem dates_not_keys_of_content :
  let t := shifted_table rows3 11 in
  sorted id (keys (content t)) = [0; 100; 200]
  /\ dates t = [1000; 1100; 1200]
  /\ dates t <> sorted id (keys (content t))
  /\ (forall d, d ∈ dates t -> content t !! d = None)
  /\ (forall k, is_Some (content t !! k) -> k ∉ dates t)
  /\ get_values_between t 1000 1200 = Raise KeyError
  /\ get_values_on t 1110 = Raise KeyError.
Proof.
  cbv zeta.
  assert (Hk : sorted id (keys (content (shifted_table rows3 11)))
               = [0; 100; 200]) by (vm_compute; reflexivity).
  assert (Hd : dates (shifted_table rows3 11) = [1000; 1100; 1200])
    by (vm_compute; reflexivity).
  split; [exact Hk|]. split; [exact Hd|].
  split; [by rewrite Hk, Hd|].
  split; [|split; [|split; vm_compute; reflexivity]].
  - intros d. rewrite Hd. intros Hin.
    repeat (apply elem_of_cons in Hin as [->|Hin]);
      [vm_compute; reflexivity..|by apply elem_of_nil in Hin].
  - intros k Hsome.
    apply (elem_of_keys (content (shifted_table rows3 11))) in Hsome.
    rewrite <- (sorted_Permutation id), Hk in Hsome. rewrite Hd.
    repeat (apply elem_of_cons in Hsome as [->|Hsome]);
      [..|by apply elem_of_nil in Hsome];
      intros Hin;
      repeat (apply elem_of_cons in Hin as [?|Hin]; [lia|]);
      by apply elem_of_nil in Hin.
Qed.

(** The table of three rows has the dates 0, 100, 200. *)
Lemma dates_sorted_keys_of_content_witness :
  (forall r, r ∈ rows3 -> id (fst r) = fst r)
  /\ dates (table rows3 11) = sorted id (keys (content (table rows3 11)))
  /\ StronglySorted Z.lt (dates (table rows3 11))
  /\ NoDup (dates (table rows3 11))
  /\ (forall d, d ∈ dates (table rows3 11)
                <-> is_Some (content (table rows3 11) !! d)).
Proof.
  split; [reflexivity|].
  apply (dates_sorted_keys_of_content fst id rows3 11). reflexivity.
Defined.



(** C3, on a table with the dates 100 and 200 and the tolerance 50. The
    query 90 has no date before it and the date 100 at distance 10 after
    it: [get_values_on] finds nothing, where the specification finds the
    row of 100. The query 210 has no date after it and the date 200 at
    distance 10 before it: [get_values_on] raises [TypeError], where the
    specification finds the row of 200. *)
Theorem get_values_on_missing_neighbour :
  dates (table rows2 50) = [100; 200]
  /\ get_values_on (table rows2 50) 90 = Ok None
  /\ nearest_within_tolerance (table rows2 50) 90 = Some (100, "a"%string)
  /\ get_values_on (table rows2 50) 210 = Raise TypeError
  /\ nearest_within_tolerance (table rows2 50) 210 = Some (200, "b"%string).
Proof. repeat split; vm_compute; reflexivity. Qed.

End TablesFacts.

(** ** CryptoExchange.build_wallets *)

Module WalletsFacts.
Import Py Models Exchanges.

Lemma add_to_wallet_lookup t (m : gmap string Wallet) c coin :
  add_to_wallet t m c !! coin =
  if decide (coin = c)
  then Some (add_transaction t (default (new_wallet c) (m !! c)))
  else m !! coin.
Proof.
  unfold add_to_wallet. destruct (decide (coin = c)) as [->|Hne].
  - destruct (decide (c ∈ dom m)) as [Hin|Hin].
    + apply elem_of_dom in Hin as [w Hw].
      by rewrite lookup_alter_eq, Hw.
    + apply not_elem_of_dom in Hin.
      by rewrite lookup_alter_eq, lookup_insert_eq, Hin.
  - rewrite lookup_alter_ne by done.
    destruct (decide (c ∈ dom m)); [done|]. by rewrite lookup_insert_ne.
Qed.

(** The inner loop, over coins that are pairwise different. *)
Lemma add_to_wallets_lookup t cs (m : gmap string Wallet) coin :
  NoDup cs ->
  foldl (add_to_wallet t) m cs !! coin =
  if decide (coin ∈ cs)
  then Some (add_transaction t (default (new_wallet coin) (m !! coin)))
  else m !! coin.
Proof.
  revert m. induction cs as [|c cs IH]; intros m Hnd; simpl.
  - destruct (decide (coin ∈ [])) as [H|]; [by inversion H|done].
  - apply NoDup_cons in Hnd as [Hc Hnd]. rewrite IH by done.
    rewrite add_to_wallet_lookup.
    destruct (decide (coin = c)) as [->|Hne].
    + destruct (decide (c ∈ cs)); [done|].
      destruct (decide (c ∈ c :: cs)) as [|Hn]; [done|].
      exfalso. apply Hn. left.
    + destruct (decide (coin ∈ cs)) as [Hin|Hin].
      * destruct (decide (coin ∈ c :: cs)) as [|Hn]; [done|].
        exfalso. apply Hn. by right.
      * destruct (decide (coin ∈ c :: cs)) as [Hin'|]; [|done].
        apply elem_of_cons in Hin' as [?|?]; done.
Qed.

Lemma distribute_all_lookup txs coin :
  foldl distribute ∅ txs !! coin = wallet_of coin txs.
Proof.
  induction txs as [|t txs IH] using rev_ind; [done|].
  rewrite foldl_app. simpl. unfold distribute at 1.
  rewrite add_to_wallets_lookup by apply NoDup_elements.
  rewrite IH. unfold wallet_of. rewrite List.filter_app. simpl.
  destruct (decide (coin ∈ elements (get_coins t))) as [Hin|Hin];
    rewrite elem_of_elements in Hin.
  - assert (touches coin t = true) as -> by by apply bool_decide_eq_true_2.
    by destruct (List.filter (touches coin) txs).
  - assert (touches coin t = false) as -> by by apply bool_decide_eq_false_2.
    by rewrite app_nil_r.
Qed.

Lemma filter_touches_successful coin txs :
  List.filter (touches coin) (List.filter successful txs)
  = List.filter (fun t => successful t && touches coin t) txs.
Proof.
  induction txs as [|t txs IH]; [done|]. simpl.
  destruct (successful t); simpl; [|done].
  destruct (touches coin t); by rewrite IH.
Qed.

(** The wallets, key by key. *)
Lemma build_wallets_lookup (self : CryptoExchange) coin :
  build_wallets self !! coin
  = wallet_of coin (List.filter successful (transactions self)).
Proof. apply distribute_all_lookup. Qed.

(** C6. The wallets built are those of the coins touched by some
    successful transaction, one for each, and no other; the wallet of a
    coin holds, in their order, the successful transactions that touch the
    coin, each once: a trade is in the wallets of both its coins, a failed
    transaction in none. *)
Theorem build_wallets_spec (self : CryptoExchange) :
  (forall coin,
      is_Some (build_wallets self !! coin)
      <-> exists t, t ∈ transactions self /\ successful t = true
                    /\ coin ∈ get_coins t)
  /\ (forall coin w,
         build_wallets self !! coin = Some w ->
         base_currency w = coin
         /\ wallet_transactions w
            = List.filter (fun t => successful t && touches coin t)
                          (transactions self))
  /\ (forall t coin,
         t ∈ transactions self -> successful t = true -> coin ∈ get_coins t ->
         exists w, build_wallets self !! coin = Some w
                   /\ t ∈ wallet_transactions w)
  /\ (forall t coin w,
         build_wallets self !! coin = Some w -> t ∈ wallet_transactions w ->
         t ∈ transactions self /\ successful t = true /\ coin ∈ get_coins t).
Proof.
  assert (Hmem : forall coin t,
    t ∈ List.filter (fun t => successful t && touches coin t) (transactions self)
    <-> t ∈ transactions self /\ successful t = true /\ coin ∈ get_coins t).
  { intros coin t. rewrite list_elem_of_In, List.filter_In, <- list_elem_of_In.
    rewrite andb_true_iff. unfold touches. rewrite bool_decide_eq_true.
    tauto. }
  assert (Hw : forall coin w, build_wallets self !! coin = Some w ->
    base_currency w = coin
    /\ wallet_transactions w
       = List.filter (fun t => successful t && touches coin t)
                     (transactions self)).
  { intros coin w. rewrite build_wallets_lookup. unfold wallet_of.
    rewrite filter_touches_successful.
    destruct (List.filter _ _); [done|]. by intros [= <-]. }
  assert (Hin : forall t coin,
    t ∈ transactions self -> successful t = true -> coin ∈ get_coins t ->
    exists w, build_wallets self !! coin = Some w /\ t ∈ wallet_transactions w).
  { intros t coin Ht Hs Hc.
    assert (Ht' : t ∈ List.filter (fun t => successful t && touches coin t)
                    (transactions self)) by by apply Hmem.
    revert Ht'. rewrite build_wallets_lookup. unfold wallet_of.
    rewrite filter_touches_successful.
    destruct (List.filter _ _) as [|t' l]; [by inversion 1|].
    intros Ht'. by eexists. }
  split; [|split; [done|split; [done|]]].
  - intros coin. split.
    + intros [w Hcoin]. destruct (Hw _ _ Hcoin) as [_ Htx].
      revert Hcoin. rewrite build_wallets_lookup. unfold wallet_of.
      rewrite filter_touches_successful.
      destruct (List.filter _ _) as [|t l] eqn:E; [done|]. intros _.
      exists t. apply (Hmem coin). rewrite E. left.
    + intros (t & Ht & Hs & Hc). destruct (Hin t coin) as (w & -> & _); done.
  - intros t coin w Hcoin Ht. apply Hw in Hcoin as [_ Htx].
    rewrite Htx in Ht. by apply Hmem.
Qed.

(** A transaction that is not successful is in no wallet. *)
Lemma build_wallets_unsuccessful (self : CryptoExchange) t coin w :
  successful t = false ->
  build_wallets self !! coin = Some w -> t ∉ wallet_transactions w.
Proof.
  intros Hs. rewrite build_wallets_lookup. unfold wallet_of.
  rewrite filter_touches_successful.
  destruct (List.filter _ _) as [|t' l] eqn:E; [done|]. intros [= <-]. simpl.
  rewrite <- E, list_elem_of_In, List.filter_In, Hs. simpl. intros [_ ?]. done.
Qed.

End WalletsFacts.

(** ** Portfolio.get_balances_from_deltas *)

Module DeltasFacts.
Import Py PyFacts TablesFacts Exchanges Samples.

Lemma list_getitem_last {A} (l : list A) (x : A) :
  list_getitem (l ++ [x]) (-1) = Ok x.
Proof.
  unfold list_getitem. rewrite length_app. simpl.
  destruct (Z.ltb_spec (-1) 0); [|lia].
  destruct (Z.leb_spec 0 (-1 + Z.of_nat (length l + 1))); [|lia].
  destruct (Z.ltb_spec (-1 + Z.of_nat (length l + 1))
              (Z.of_nat (length l + 1))); [|lia].
  simpl. replace (Z.to_nat (-1 + Z.of_nat (length l + 1))) with (length l) by lia.
  by rewrite list_lookup_middle.
Qed.

Lemma filter_Permutation {A} (f : A -> bool) (l l' : list A) :
  l ≡ₚ l' -> List.filter f l ≡ₚ List.filter f l'.
Proof.
  induction 1 as [|x l l' Hp IH|x y l|l l' l'' Hp1 IH1 Hp2 IH2]; simpl.
  - done.
  - destruct (f x); by rewrite IH.
  - destruct (f x), (f y); try done. apply Permutation_swap.
  - by rewrite IH1.
Qed.

Section Deltas.
Context {V : Type}.
Variable add : V -> V -> V.

Abbreviation delta := (delta V).
Abbreviation running := (running add).
Abbreviation sum_of := (sum_of add).
Abbreviation is_number := (@is_number V).
Abbreviation number_of := (@number_of V).
Abbreviation known := (@known V).
Abbreviation replayed := (@replayed V).
Abbreviation numbers := (@numbers V).

Lemma known_is_number deltas : Forall is_number (known deltas).
Proof.
  apply Forall_forall. intros d Hd. unfold known in Hd.
  apply list_elem_of_In, List.filter_In in Hd as [_ Hd].
  unfold is_number. by destruct (is_NAN (delta_value d)).
Qed.

Lemma replayed_is_number deltas : Forall is_number (replayed deltas).
Proof.
  unfold replayed. rewrite sorted_Permutation. apply known_is_number.
Qed.

Lemma append_balance_number pre t acc d x :
  delta_value d = Number x ->
  append_balance add
    (Ok (pre ++ [{| date_time := t; delta_value := Number acc |}])) d
  = Ok ((pre ++ [{| date_time := t; delta_value := Number acc |}])
          ++ [{| date_time := date_time d;
                 delta_value := Number (add acc x) |}]).
Proof.
  intros E. unfold append_balance. simpl. rewrite list_getitem_last. simpl.
  by rewrite E.
Qed.

(** The loop, started on balances that end in the balance [acc]. *)
Lemma foldl_append_balance pre t acc rest :
  Forall is_number rest ->
  foldl (append_balance add)
        (Ok (pre ++ [{| date_time := t; delta_value := Number acc |}])) rest
  = Ok (pre ++ {| date_time := t; delta_value := Number acc |}
            :: running acc rest).
Proof.
  revert pre t acc. induction rest as [|d rest IH]; intros pre t acc Hn.
  - done.
  - apply Forall_cons in Hn as [Hd Hn]. cbn [foldl].
    unfold is_number in Hd. destruct (delta_value d) as [x|] eqn:E; [|done].
    rewrite (append_balance_number pre t acc d x E).
    rewrite (IH (pre ++ [{| date_time := t; delta_value := Number acc |}]))
      by done.
    simpl. by rewrite E, <- app_assoc.
Qed.

(** The function on the deltas it replays. *)
Lemma get_balances_from_deltas_replayed deltas first rest :
  replayed deltas = first :: rest ->
  get_balances_from_deltas add deltas
  = match delta_value first with
    | Number x => Ok (first :: running x rest)
    | NAN => Raise TypeError
    end.
Proof.
  intros Hr. pose proof (replayed_is_number deltas) as Hn. rewrite Hr in Hn.
  apply Forall_cons in Hn as [Hf Hn].
  unfold get_balances_from_deltas. destruct deltas as [|d0 deltas]; [done|].
  fold (known (d0 :: deltas)). fold (replayed (d0 :: deltas)). rewrite Hr.
  simpl. unfold is_number in Hf. rewrite drop_0.
  destruct first as [t [x|]]; [|done]. simpl.
  exact (foldl_append_balance [] t x rest Hn).
Qed.

Lemma running_length acc ds :
  Forall is_number ds -> length (running acc ds) = length ds.
Proof.
  revert acc. induction ds as [|d ds IH]; intros acc Hn; [done|].
  apply Forall_cons in Hn as [Hd Hn]. simpl. unfold is_number in Hd.
  destruct (delta_value d); [|done]. simpl. by rewrite IH.
Qed.

Lemma numbers_cons (d : delta) (ds : list delta) (x : V) :
  delta_value d = Number x -> numbers (d :: ds) = x :: numbers ds.
Proof. intros E. unfold numbers, Exchanges.number_of. simpl. by rewrite E. Qed.

(** The [i]-th running balance is the sum of the first deltas, up to the
    [i]-th. *)
Lemma running_lookup acc (ds : list delta) i (d : delta) :
  Forall is_number ds -> ds !! i = Some d ->
  running acc ds !! i
  = Some {| date_time := date_time d;
            delta_value := Number (foldl add acc (numbers (take (S i) ds))) |}.
Proof.
  revert acc i. induction ds as [|d' ds IH]; intros acc i Hn Hi; [done|].
  apply Forall_cons in Hn as [Hd Hn]. unfold Exchanges.is_number in Hd.
  destruct (delta_value d') as [x|] eqn:E; [|done].
  change (take (S i) (d' :: ds)) with (d' :: take i ds).
  rewrite (numbers_cons _ _ _ E). cbn [running]. rewrite E.
  destruct i as [|i]; simpl in Hi |- *.
  - by injection Hi as <-.
  - by rewrite (IH _ _ Hn Hi).
Qed.

(** The last running balance is the sum of all the deltas. *)
Lemma last_running t x rest :
  Forall is_number rest ->
  last ({| date_time := t; delta_value := Number x |} :: running x rest)
    ≫= number_of
  = Some (foldl add x (numbers rest)).
Proof.
  revert t x. induction rest as [|d rest IH]; intros t x Hn; [done|].
  apply Forall_cons in Hn as [Hd Hn]. unfold is_number in Hd.
  destruct (delta_value d) as [y|] eqn:E; [|done].
  rewrite (numbers_cons _ _ _ E). simpl. rewrite E.
  rewrite <- (IH (date_time d) (add x y) Hn).
  by destruct (running (add x y) rest).
Qed.

(** What the function returns when some delta is known: as many balances
    as deltas are replayed, the [i]-th of them carrying the date of the
    [i]-th replayed delta and the sum of the replayed values up to it. *)
Lemma get_balances_from_deltas_known deltas :
  known deltas <> [] ->
  exists balances,
    get_balances_from_deltas add deltas = Ok balances
    /\ length balances = length (replayed deltas)
    /\ (forall i d, replayed deltas !! i = Some d ->
          exists s, sum_of (numbers (take (S i) (replayed deltas))) = Some s
                    /\ balances !! i
                       = Some {| date_time := date_time d;
                                 delta_value := Number s |})
    /\ last balances ≫= number_of = sum_of (numbers (replayed deltas)).
Proof.
  intros Hk.
  destruct (replayed deltas) as [|first rest] eqn:Hr.
  { exfalso. apply Hk. apply Permutation_nil_r. symmetry.
    rewrite <- Hr. apply sorted_Permutation. }
  pose proof (replayed_is_number deltas) as Hn. rewrite Hr in Hn.
  apply Forall_cons in Hn as [Hf Hn]. unfold is_number in Hf.
  rewrite (get_balances_from_deltas_replayed _ _ _ Hr).
  destruct first as [t [x|]]; [|done]. simpl.
  eexists. split; [done|]. split; [|split].
  - simpl. by rewrite running_length.
  - intros [|i] d Hi; simpl in *.
    + simplify_eq. by exists x.
    + rewrite (running_lookup _ _ _ _ Hn Hi). unfold numbers. simpl.
      eexists. split; done.
  - by apply last_running.
Qed.

(** The replay order is ascending in the dates and keeps every known
    delta. *)
Lemma replayed_sorted deltas :
  Sorted (key_le date_time) (replayed deltas) /\ replayed deltas ≡ₚ known deltas.
Proof. split; [apply sorted_Sorted|apply sorted_Permutation]. Qed.

(** Nothing is known: the first balance is read from an empty list. *)
Lemma get_balances_from_deltas_unknown deltas :
  deltas <> [] -> known deltas = [] ->
  get_balances_from_deltas add deltas = Raise IndexError.
Proof.
  intros Hne Hk. unfold get_balances_from_deltas.
  destruct deltas as [|d0 deltas]; [done|].
  fold (known (d0 :: deltas)). by rewrite Hk.
Qed.

(** C5, as the code has it: where the known deltas have pairwise different
    dates, the balances do not depend on the order in which the deltas
    are given. *)
Theorem get_balances_from_deltas_Permutation deltas deltas' :
  deltas ≡ₚ deltas' ->
  NoDup (date_time <$> known deltas) ->
  get_balances_from_deltas add deltas = get_balances_from_deltas add deltas'.
Proof.
  intros Hp Hnd.
  assert (Hr : replayed deltas = replayed deltas').
  { apply sorted_Permutation_eq; [|done]. by apply filter_Permutation. }
  unfold get_balances_from_deltas.
  destruct deltas as [|d0 deltas], deltas' as [|d0' deltas'].
  - done.
  - by apply Permutation_nil_l in Hp.
  - by apply Permutation_nil_r in Hp.
  - fold (known (d0 :: deltas)) (known (d0' :: deltas')).
    fold (replayed (d0 :: deltas)) (replayed (d0' :: deltas')).
    by rewrite Hr.
Qed.

End Deltas.

(** The example of the specification: the deltas (t1, 5), (t2, -2),
    (t3, 3) give the balances 5, 3, 6, in whatever order they come and
    whatever unknown values come with them. *)
Example get_balances_from_deltas_example :
  get_balances_from_deltas Z.add
    [delta_of 3 3; unknown_at 0; delta_of 1 5; delta_of 2 (-2)]
  = Ok [delta_of 1 5; delta_of 2 3; delta_of 3 6].
Proof. reflexivity. Qed.

(** C4, where it fails: a list whose deltas are all unknown is not
    empty, so the guard for the empty list lets it pass; nothing is
    left after the unknown values are taken out, and reading the first
    delta raises [IndexError] instead of returning the empty series. *)
Theorem get_balances_from_deltas_all_unknown :
  get_balances_from_deltas Z.add [unknown_at 1] = Raise IndexError
  /\ get_balances_from_deltas Z.add [unknown_at 1; unknown_at 2]
     = Raise IndexError
  /\ get_balances_from_deltas Z.add [] = Ok [].
Proof. repeat split; reflexivity. Qed.

(** C5, refuted as stated: two deltas of the same date, given in the two
    possible orders, lead to different balances. *)
Lemma get_balances_from_deltas_ties_counterexample :
  [delta_of 1 5; delta_of 1 (-2)] ≡ₚ [delta_of 1 (-2); delta_of 1 5]
  /\ get_balances_from_deltas Z.add [delta_of 1 5; delta_of 1 (-2)]
     = Ok [delta_of 1 5; delta_of 1 3]
  /\ get_balances_from_deltas Z.add [delta_of 1 (-2); delta_of 1 5]
     = Ok [delta_of 1 (-2); delta_of 1 3]
  /\ get_balances_from_deltas Z.add [delta_of 1 5; delta_of 1 (-2)]
     <> get_balances_from_deltas Z.add [delta_of 1 (-2); delta_of 1 5].
Proof.
  split; [apply Permutation_swap|]. repeat split; try reflexivity.
  discriminate.
Qed.

(** Three deltas of different dates, in two orders. *)
Lemma get_balances_from_deltas_Permutation_witness :
  [delta_of 1 5; delta_of 2 (-2); delta_of 3 3]
    ≡ₚ [delta_of 3 3; delta_of 1 5; delta_of 2 (-2)]
  /\ NoDup (date_time <$> known [delta_of 1 5; delta_of 2 (-2); delta_of 3 3])
  /\ get_balances_from_deltas Z.add [delta_of 1 5; delta_of 2 (-2); delta_of 3 3]
     = get_balances_from_deltas Z.add
         [delta_of 3 3; delta_of 1 5; delta_of 2 (-2)].
Proof.
  assert (Hp : [delta_of 1 5; delta_of 2 (-2); delta_of 3 3]
                 ≡ₚ [delta_of 3 3; delta_of 1 5; delta_of 2 (-2)]).
  { change ([delta_of 1 5; delta_of 2 (-2)] ++ [delta_of 3 3]
              ≡ₚ [delta_of 3 3] ++ [delta_of 1 5; delta_of 2 (-2)]).
    apply Permutation_app_comm. }
  assert (Hnd : NoDup (date_time <$>
                         known [delta_of 1 5; delta_of 2 (-2); delta_of 3 3])).
  { simpl. apply NoDup_ListNoDup. repeat constructor; simpl; intuition lia. }
  split; [exact Hp|]. split; [exact Hnd|].
  exact (get_balances_from_deltas_Permutation Z.add _ _ Hp Hnd).
Defined.

End DeltasFacts.

(** ** The exchange parsers *)

Module ParsersFacts.
Import Py Models Exchanges Parsers Samples WalletsFacts.

(** *** Classification *)

Lemma eq_str_inj v s s' : eq_str v s = true -> eq_str v s' = true -> s = s'.
Proof.
  destruct v; simpl; try done.
  rewrite !String.eqb_eq. congruence.
Qed.

(** The Bitfinex predicates compare one field with different literals. *)
Lemma bitfinex_exclusive raw :
  ~ (holds (Bitfinex.is_trade raw) /\ holds (Bitfinex.is_deposit raw))
  /\ ~ (holds (Bitfinex.is_trade raw) /\ holds (Bitfinex.is_withdrawal raw))
  /\ ~ (holds (Bitfinex.is_deposit raw) /\ holds (Bitfinex.is_withdrawal raw)).
Proof.
  unfold holds, Bitfinex.is_trade, Bitfinex.is_deposit, Bitfinex.is_withdrawal.
  destruct (getitem raw "type") as [type|]; simpl;
    [|by repeat split; intros []].
  unfold in_strs. simpl. rewrite orb_false_r.
  repeat split; intros [[= H1] [= H2]];
    try apply orb_true_iff in H1 as [H1|H1];
    by pose proof (eq_str_inj _ _ _ H1 H2).
Qed.

(** An amount is negative or it is not. *)
Lemma coinbase_deposit_withdrawal_exclusive raw :
  ~ (holds (Coinbase.is_deposit raw) /\ holds (Coinbase.is_withdrawal raw)).
Proof.
  unfold holds, Coinbase.is_deposit, Coinbase.is_withdrawal, Qlt_bool.
  destruct (Coinbase.amount_of raw "amount") as [a|]; simpl; [|by intros []].
  destruct (Coinbase.amount_of raw "native_amount") as [n|]; simpl;
    [|by intros []].
  intros [[= H1] [= H2]]. by destruct (Qle_bool 0 a).
Qed.

Lemma gdax_deposit_withdrawal_exclusive raw :
  ~ (holds (Gdax.is_deposit raw) /\ holds (Gdax.is_withdrawal raw)).
Proof.
  unfold holds, Gdax.is_deposit, Gdax.is_withdrawal.
  destruct (Gdax.get_transfer_type raw) as [tt|]; simpl; [|by intros []].
  intros [[= H1] [= H2]]. by pose proof (eq_str_inj _ _ _ H1 H2).
Qed.

Ltac by_class :=
  intros; simpl in *;
  unfold mbind, result_bind, fmap, result_fmap, as_str in *;
  repeat (case_match; simpl in *; simplify_eq);
  eauto.

(** The first predicate that returns true decides the rule. *)
Lemma extract_by_class_trade p r raw :
  holds (is_trade p raw) -> extract_by_class p r raw = of_trade r raw.
Proof. unfold holds, extract_by_class, classify. by intros ->. Qed.

Lemma extract_by_class_deposit p r raw :
  is_trade p raw = Ok false -> holds (is_deposit p raw) ->
  extract_by_class p r raw = of_deposit r raw.
Proof. unfold holds, extract_by_class, classify. by intros -> ->. Qed.

Lemma extract_by_class_withdrawal p r raw :
  is_trade p raw = Ok false -> is_deposit p raw = Ok false ->
  holds (is_withdrawal p raw) ->
  extract_by_class p r raw = of_withdrawal r raw.
Proof. unfold holds, extract_by_class, classify. by intros -> -> ->. Qed.

Lemma extract_by_class_unknown p r raw :
  is_trade p raw = Ok false -> is_deposit p raw = Ok false ->
  is_withdrawal p raw = Ok false ->
  extract_by_class p r raw = Ok nothing.
Proof. unfold extract_by_class, classify. by intros -> -> ->. Qed.

Lemma binance_by_class truediv fromtimestamp raw :
  Binance.get_coins_amounts raw
  = extract_by_class (Binance.parser truediv fromtimestamp) binance_rules raw.
Proof.
  unfold extract_by_class, classify, Binance.parser, Binance.get_coins_amounts,
    Binance.is_trade, Binance.is_deposit, Binance.is_withdrawal, binance_rules,
    incoming, outgoing, exchanged, nothing.
  by_class.
Qed.

Lemma bitfinex_by_class raw :
  Bitfinex.get_coins_amounts raw
  = extract_by_class Bitfinex.parser bitfinex_rules raw.
Proof.
  unfold extract_by_class, classify, Bitfinex.parser, Bitfinex.get_coins_amounts,
    Bitfinex.is_trade, Bitfinex.is_deposit, Bitfinex.is_withdrawal,
    bitfinex_rules, incoming, outgoing, exchanged, nothing.
  by_class.
Qed.

Lemma coinbase_by_class ciso raw :
  Coinbase.get_coins_amounts raw
  = extract_by_class (Coinbase.parser ciso) coinbase_rules raw.
Proof.
  unfold extract_by_class, classify, Coinbase.parser, Coinbase.get_coins_amounts,
    Coinbase.is_trade, Coinbase.is_deposit, Coinbase.is_withdrawal,
    coinbase_rules, incoming, outgoing, exchanged, nothing.
  by_class.
Qed.

Lemma gdax_by_sign raw : Gdax.get_coins_amounts raw = by_sign raw.
Proof.
  unfold Gdax.get_coins_amounts, by_sign, incoming, outgoing. by_class.
Qed.

(** The Coinbase purchase, a trade and a deposit at once, is read as a
    trade: one coin for 9500 dollars, where the rule of a deposit would
    read a coin for nothing. *)
Lemma coinbase_buy_read_as_trade :
  exists amount native_amount,
    Coinbase.get_coins_amounts coinbase_buy
    = Ok (JStr "BTC", amount, JStr "USD", native_amount)
    /\ (amount == 1)%Q /\ (native_amount == 9500)%Q
    /\ of_trade coinbase_rules coinbase_buy
       = Ok (JStr "BTC", amount, JStr "USD", native_amount)
    /\ of_deposit coinbase_rules coinbase_buy
       = Ok (JStr "BTC", amount, JNone, 0%Q).
Proof. eexists _, _. repeat split; reflexivity. Qed.

(** C7, refuted as stated: the Coinbase purchase satisfies [is_trade] and
    [is_deposit] at once; the Binance record without marker field
    satisfies none of the three predicates, and is not rejected:
    [get_coins_amounts] returns the empty extraction. *)
Lemma classification_counterexample :
  (holds (Coinbase.is_trade coinbase_buy)
   /\ holds (Coinbase.is_deposit coinbase_buy)
   /\ forall ciso, ~ classified_once (Coinbase.parser ciso) coinbase_buy)
  /\ (Binance.is_trade binance_unmarked = Ok false
      /\ Binance.is_deposit binance_unmarked = Ok false
      /\ Binance.is_withdrawal binance_unmarked = Ok false
      /\ (forall truediv fromtimestamp,
            ~ classified_once (Binance.parser truediv fromtimestamp)
                binance_unmarked)
      /\ Binance.get_coins_amounts binance_unmarked
         = Ok (JNone, 0%Q, JNone, 0%Q)).
Proof.
  assert (Ht : holds (Coinbase.is_trade coinbase_buy)) by reflexivity.
  assert (Hd : holds (Coinbase.is_deposit coinbase_buy)) by reflexivity.
  split.
  - split; [done|]. split; [done|]. intros ciso.
    unfold classified_once. simpl. tauto.
  - repeat split; try reflexivity.
    intros truediv fromtimestamp.
    unfold classified_once, holds. simpl. intros [H|[H|H]];
      destruct H as (H1 & H2 & H3); by vm_compute in H1, H2, H3.
Qed.

(** C7, as the code has it. The three predicates are separate tests: two
    of them can hold of one record (the Coinbase purchase is a trade and
    a deposit), and none need hold (the Binance record without marker
    field). Those of Bitfinex exclude each other; for Coinbase and GDAX,
    [is_deposit] and [is_withdrawal] exclude each other.
    [get_coins_amounts] of Binance, Bitfinex and Coinbase tries them in
    the order trade, deposit, withdrawal and reads the record by the rule
    of the first that returns true, whatever the later ones would say: a
    trade by the rule of trades, also when it is a deposit as well; a
    record for which all three return false is given the empty extraction
    [(None, 0, None, 0)]. [get_coins_amounts] of GDAX asks none of them:
    it reads one side, chosen by the sign of the amount. *)
Theorem classification_by_first_match truediv fromtimestamp ciso raw :
  (holds (Coinbase.is_trade coinbase_buy)
   /\ holds (Coinbase.is_deposit coinbase_buy))
  /\ (Binance.is_trade binance_unmarked = Ok false
      /\ Binance.is_deposit binance_unmarked = Ok false
      /\ Binance.is_withdrawal binance_unmarked = Ok false)
  /\ (~ (holds (Bitfinex.is_trade raw) /\ holds (Bitfinex.is_deposit raw))
   /\ ~ (holds (Bitfinex.is_trade raw) /\ holds (Bitfinex.is_withdrawal raw))
   /\ ~ (holds (Bitfinex.is_deposit raw) /\ holds (Bitfinex.is_withdrawal raw)))
  /\ ~ (holds (Coinbase.is_deposit raw) /\ holds (Coinbase.is_withdrawal raw))
  /\ ~ (holds (Gdax.is_deposit raw) /\ holds (Gdax.is_withdrawal raw))
  /\ (forall p r,
        (p = Binance.parser truediv fromtimestamp /\ r = binance_rules)
        \/ (p = Bitfinex.parser /\ r = bitfinex_rules)
        \/ (p = Coinbase.parser ciso /\ r = coinbase_rules) ->
        get_coins_amounts p raw = extract_by_class p r raw
        /\ (holds (is_trade p raw) ->
            get_coins_amounts p raw = of_trade r raw)
        /\ (is_trade p raw = Ok false -> holds (is_deposit p raw) ->
            get_coins_amounts p raw = of_deposit r raw)
        /\ (is_trade p raw = Ok false -> is_deposit p raw = Ok false ->
            holds (is_withdrawal p raw) ->
            get_coins_amounts p raw = of_withdrawal r raw)
        /\ (is_trade p raw = Ok false -> is_deposit p raw = Ok false ->
            is_withdrawal p raw = Ok false ->
            get_coins_amounts p raw = Ok (JNone, 0%Q, JNone, 0%Q)))
  /\ Gdax.get_coins_amounts raw = by_sign raw.
Proof.
  split; [by split|]. split; [by repeat split|].
  split; [apply bitfinex_exclusive|].
  split; [apply coinbase_deposit_withdrawal_exclusive|].
  split; [apply gdax_deposit_withdrawal_exclusive|].
  split; [|apply gdax_by_sign].
  intros p r Hp.
  assert (E : get_coins_amounts p raw = extract_by_class p r raw).
  { destruct Hp as [[-> ->]|[[-> ->]|[-> ->]]].
    - apply binance_by_class.
    - apply bitfinex_by_class.
    - apply coinbase_by_class. }
  split; [exact E|]. rewrite E.
  split; [apply extract_by_class_trade|].
  split; [apply extract_by_class_deposit|].
  split; [apply extract_by_class_withdrawal|apply extract_by_class_unknown].
Qed.

(** The Coinbase purchase is read by the rule of trades, the Binance
    record without marker field is given the empty extraction. *)
Lemma classification_by_first_match_witness :
  holds (Coinbase.is_trade coinbase_buy)
  /\ holds (Coinbase.is_deposit coinbase_buy)
  /\ Coinbase.get_coins_amounts coinbase_buy
     = of_trade coinbase_rules coinbase_buy
  /\ Binance.get_coins_amounts binance_unmarked = Ok (JNone, 0%Q, JNone, 0%Q).
Proof.
  pose proof (classification_by_first_match exact_truediv exact_fromtimestamp
                (fun _ => Raise ValueError)) as H.
  destruct (H coinbase_buy) as ((Ht & Hd) & _ & _ & _ & _ & Hfirst & _).
  destruct (Hfirst (Coinbase.parser (fun _ => Raise ValueError)) coinbase_rules)
    as (_ & Htrade & _); [right; right; by split|].
  destruct (H binance_unmarked)
    as (_ & (Hbt & Hbd & Hbw) & _ & _ & _ & Hfirst' & _).
  destruct (Hfirst' (Binance.parser exact_truediv exact_fromtimestamp)
              binance_rules) as (_ & _ & _ & _ & Hnone); [left; by split|].
  split; [exact Ht|]. split; [exact Hd|].
  split; [exact (Htrade Ht)|exact (Hnone Hbt Hbd Hbw)].
Defined.

(** *** Commissions *)

(** The [try]/[except] of Coinbase turns every failure into [None]. *)
Lemma coinbase_get_commission_returns ciso raw :
  exists commission, Coinbase.get_commission ciso raw = Ok commission.
Proof.
  unfold Coinbase.get_commission, try_except.
  destruct (_ ≫= _); eauto.
Qed.

Lemma gdax_get_commission_returns raw : Gdax.get_commission raw = Ok None.
Proof. reflexivity. Qed.

(** For a Bitfinex withdrawal [get_fee] falls off its end, and
    [get_commission] fails to unpack the result. *)
Lemma bitfinex_get_commission_withdrawal raw :
  holds (Bitfinex.is_withdrawal raw) ->
  Bitfinex.get_fee raw = Ok None
  /\ Bitfinex.get_commission raw = Raise TypeError.
Proof.
  unfold holds, Bitfinex.get_commission, Bitfinex.get_fee, or_else,
    Bitfinex.is_withdrawal, Bitfinex.is_trade, Bitfinex.is_deposit.
  destruct (getitem raw "type") as [type|]; cbn -[in_strs eq_str]; [|done].
  intros [= Hw].
  assert (in_strs type ["Sell"; "Buy"]%string = false) as ->.
  { unfold in_strs. simpl. rewrite orb_false_r.
    apply orb_false_iff. split; apply not_true_is_false; intros H;
      by pose proof (eq_str_inj _ _ _ Hw H). }
  cbn -[in_strs eq_str].
  assert (eq_str type "DEPOSIT" = false) as ->.
  { apply not_true_is_false. intros H. by pose proof (eq_str_inj _ _ _ Hw H). }
  done.
Qed.

(** C8, where it fails: for the withdrawal [get_fee] returns [None], which
    [get_commission] cannot unpack; for the trade without fee fields the
    missing key is not caught. *)
Theorem bitfinex_get_commission_raises :
  holds (Bitfinex.is_withdrawal bitfinex_withdrawal)
  /\ Bitfinex.get_fee bitfinex_withdrawal = Ok None
  /\ Bitfinex.get_commission bitfinex_withdrawal = Raise TypeError
  /\ holds (Bitfinex.is_trade bitfinex_trade_no_fee)
  /\ Bitfinex.get_commission bitfinex_trade_no_fee = Raise KeyError.
Proof. repeat split; reflexivity. Qed.

(** *** Market symbols *)

(** The coins of a Binance trade are always cut three characters from the
    end of the symbol. *)
Lemma binance_trade_coins raw r :
  holds (Binance.is_trade raw) ->
  Binance.get_coins_amounts raw = Ok r ->
  exists market amount_buy amount_sell,
    getitem raw "symbol" = Ok (JStr market)
    /\ (r = (JStr (slice_to market (-3)), amount_buy,
             JStr (slice_from market (-3)), amount_sell)
        \/ r = (JStr (slice_from market (-3)), amount_sell,
                JStr (slice_to market (-3)), amount_buy)).
Proof.
  unfold holds, Binance.get_coins_amounts. intros ->. simpl.
  unfold mbind, result_bind, as_str.
  repeat (case_match; simpl in *; simplify_eq); intros [= <-]; eauto 10.
Qed.

Lemma substring_length_le n m s : (String.length (substring n m s) <= m)%nat.
Proof.
  revert n m. induction s as [|c s IH]; intros [|n] [|m]; simpl; try lia.
  - specialize (IH 0%nat m). lia.
  - apply (IH n 0%nat).
  - apply (IH n (S m)).
Qed.

(** The coin cut from the end of a symbol has at most three characters:
    it is never USDT. *)
Lemma slice_from_not_USDT market : slice_from market (-3) <> "USDT"%string.
Proof.
  intros E. apply (f_equal String.length) in E. unfold slice_from in E.
  pose proof (substring_length_le
                (slice_bound (String.length market) (-3))
                (String.length market
                 - slice_bound (String.length market) (-3)) market) as Hle.
  rewrite E in Hle. simpl in Hle. unfold slice_bound in Hle. simpl in Hle. lia.
Qed.

(** C9, where it fails: the symbol BTCUSDT ends with USDT, and is split
    into BTCU and SDT. *)
Theorem binance_usdt_split :
  holds (Binance.is_trade binance_btcusdt)
  /\ getitem binance_btcusdt "symbol" = Ok (JStr "BTCUSDT")
  /\ endswith "BTCUSDT" "USDT" = true
  /\ replace "BTCUSDT" "USDT" "" = "BTC"%string
  /\ exists amount_buy amount_sell,
       Binance.get_coins_amounts binance_btcusdt
       = Ok (JStr "BTCU", amount_buy, JStr "SDT", amount_sell)
       /\ (amount_buy == 2)%Q /\ (amount_sell == 20001)%Q.
Proof.
  repeat split; try reflexivity.
  eexists _, _. split; [reflexivity|]. split; reflexivity.
Qed.

(** *** Success of a Bitfinex trade *)

(** C10. For a Bitfinex trade whose [fee_amount] reads as the float [fee],
    [is_successful] returns whether [fee <= 0]. A trade with a positive
    fee is therefore reported as not successful, and a transaction that
    carries this answer as its [successful] flag is in no wallet that
    [build_wallets] builds. *)
Theorem bitfinex_is_successful_trade (raw : dict) (fee : Q) :
  holds (Bitfinex.is_trade raw) ->
  getitem raw "fee_amount" ≫= float = Ok fee ->
  Bitfinex.is_successful raw = Ok (Qle_bool fee 0)
  /\ (Bitfinex.is_successful raw = Ok true <-> (fee <= 0)%Q)
  /\ ((0 < fee)%Q ->
      Bitfinex.is_successful raw = Ok false
      /\ forall (t : Transaction) (exchange : CryptoExchange) coin w,
           Bitfinex.is_successful raw = Ok (successful t) ->
           build_wallets exchange !! coin = Some w ->
           t ∉ wallet_transactions w).
Proof.
  intros Ht Hfee.
  assert (Hs : Bitfinex.is_successful raw = Ok (Qle_bool fee 0)).
  { unfold Bitfinex.is_successful. rewrite Ht. simpl. by rewrite Hfee. }
  split; [done|]. rewrite Hs. split.
  - rewrite <- Qle_bool_iff. split; [by intros [= ->]|by intros ->].
  - intros Hpos.
    assert (Hf : Qle_bool fee 0 = false).
    { apply not_true_is_false. rewrite Qle_bool_iff.
      by apply Qlt_not_le. }
    rewrite Hf. split; [done|].
    intros t exchange coin w [= Hflag]. symmetry in Hflag.
    by apply build_wallets_unsuccessful.
Qed.

(** A sale with the positive fee 0.0012, and an exchange that holds a
    successful and a failed sale. *)
Lemma bitfinex_is_successful_trade_witness :
  holds (Bitfinex.is_trade (bitfinex_trade "0.0012"))
  /\ getitem (bitfinex_trade "0.0012") "fee_amount" ≫= float
     = Ok (0 + 12 / 10000)%Q
  /\ Bitfinex.is_successful (bitfinex_trade "0.0012") = Ok false
  /\ forall coin w,
       build_wallets {| transactions := [sale true; sale false];
                        exchange_name := "bitfinex" |} !! coin = Some w ->
       sale false ∉ wallet_transactions w.
Proof.
  assert (Htrade : holds (Bitfinex.is_trade (bitfinex_trade "0.0012")))
    by reflexivity.
  assert (Hfee : getitem (bitfinex_trade "0.0012") "fee_amount" ≫= float
                 = Ok (0 + 12 / 10000)%Q) by reflexivity.
  assert (Hpos : (0 < 0 + 12 / 10000)%Q) by reflexivity.
  destruct (bitfinex_is_successful_trade _ _ Htrade Hfee) as (_ & _ & Hbad).
  destruct (Hbad Hpos) as [Hfalse Hout].
  split; [exact Htrade|]. split; [exact Hfee|]. split; [exact Hfalse|].
  intros coin w. apply Hout. exact Hfalse.
Defined.

End ParsersFacts.

(** ** DatetimeTable: ranges, and what a lookup can return *)

Module TablesMore.
Import Py PyFacts Tables TablesFacts Samples.

Section DatetimeTable.
Context {Row : Type}.
Variable item_date : Row -> datetime.
Variable parse_datetime : datetime -> datetime.

Abbreviation init := (init item_date parse_datetime).

(** Whatever [parse_datetime] does, the dates of a table ascend. *)
Lemma dates_ascending_any rows e : StronglySorted Z.le (dates (init rows e)).
Proof. apply (dates_parsed_keys item_date parse_datetime rows e). Qed.



(** Where no date of the table lies in the range, nothing is looked up. *)
Lemma get_values_between_none (t : DatetimeTable Row) since until :
  Forall (fun d => ~ since <= d <= until) (dates t) ->
  get_values_between t since until = Ok [].
Proof.
  unfold get_values_between. induction 1 as [|d ds Hd Hds IH]; [done|].
  cbn [foldr]. rewrite IH.
  by destruct (Z.leb_spec since d), (Z.leb_spec d until); simpl; try lia.
Qed.

(** On ascending dates, a range is read as its two parts, one after the
    other; the first exception of the parts is that of the whole. *)
Lemma get_values_between_parts (t : DatetimeTable Row) a b c :
  StronglySorted Z.le (dates t) -> a <= b + 1 -> b <= c ->
  get_values_between t a c
  = (rows1 ← get_values_between t a b;
     rows2 ← get_values_between t (b + 1) c;
     Ok (rows1 ++ rows2)).
Proof.
  intros Hs Hab Hbc. destruct t as [m ds e]. simpl in Hs.
  induction Hs as [|d ds Hs IH Hall]; [done|].
  unfold get_values_between in *. cbn [dates content foldr] in *.
  rewrite IH. clear IH.
  destruct (Z.leb_spec a d), (Z.leb_spec d c), (Z.leb_spec d b),
    (Z.leb_spec (b + 1) d); simpl; try lia; try done.
  - (* the date belongs to the first part *)
    unfold mbind, result_bind. repeat case_match; simplify_eq; done.
  - (* the date belongs to the second part: the first part is over *)
    assert (Hnone : get_values_between
                      {| content := m; dates := ds; max_error := e |} a b
                    = Ok []).
    { apply get_values_between_none. simpl.
      eapply Forall_impl; [exact Hall|]. simpl. intros d'. lia. }
    unfold get_values_between in Hnone. simpl in Hnone.
    rewrite Hnone. simpl.
    unfold mbind, result_bind. repeat case_match; simplify_eq; done.
Qed.

(** X2. On every table, two ranges that touch can be read one after the
    other: [a..c] yields the rows of [a..b] followed by the rows of
    [b+1..c], and raises what the first of them to raise does; when both
    return, so does the whole. A range whose end lies before its start
    is empty. *)
Theorem get_values_between_app rows max_error_search :
  let t := init rows max_error_search in
  (forall a b c, a <= b + 1 -> b <= c ->
     get_values_between t a c
     = (rows1 ← get_values_between t a b;
        rows2 ← get_values_between t (b + 1) c;
        Ok (rows1 ++ rows2))
     /\ (forall rows1 rows2,
           get_values_between t a b = Ok rows1 ->
           get_values_between t (b + 1) c = Ok rows2 ->
           get_values_between t a c = Ok (rows1 ++ rows2)))
  /\ (forall since until, until < since ->
        get_values_between t since until = Ok []).
Proof.
  cbv zeta. split.
  - intros a b c Hab Hbc.
    assert (E := get_values_between_parts (init rows max_error_search) a b c
                   (dates_ascending_any rows max_error_search) Hab Hbc).
    split; [exact E|]. intros rows1 rows2 H1 H2. by rewrite E, H1, H2.
  - intros since until Hlt. apply get_values_between_none.
    apply Forall_forall. intros d _. lia.
Qed.

Section Canonical.
Variable rows : list Row.
Variable max_error_search : Z.
Hypothesis parse_canonical :
  forall r, r ∈ rows -> parse_datetime (item_date r) = item_date r.





End Canonical.
End DatetimeTable.

(** The table of three rows: the rows from 50 to 200, read in one range
    and in two; the same on the table whose dates are no keys, where each
    range raises. *)
Lemma get_values_between_app_witness :
  50 <= 150 + 1 /\ 150 <= 200 /\ 150 < 151
  /\ get_values_between (table rows3 11) 50 150 = Ok [(100, "b"%string)]
  /\ get_values_between (table rows3 11) (150 + 1) 200 = Ok [(200, "c"%string)]
  /\ get_values_between (table rows3 11) 50 200
     = Ok ([(100, "b"%string)] ++ [(200, "c"%string)])
  /\ get_values_between (table rows3 11) 151 150 = Ok []
  /\ get_values_between (shifted_table rows3 11) 1050 1200
     = (rows1 ← get_values_between (shifted_table rows3 11) 1050 1150;
        rows2 ← get_values_between (shifted_table rows3 11) (1150 + 1) 1200;
        Ok (rows1 ++ rows2)).
Proof.
  assert (H1 : 50 <= 150 + 1) by lia.
  assert (H2 : 150 <= 200) by lia.
  assert (H3 : 150 < 151) by lia.
  assert (H4 : 1050 <= 1150 + 1) by lia.
  assert (H5 : 1150 <= 1200) by lia.
  assert (Ha : get_values_between (table rows3 11) 50 150
               = Ok [(100, "b"%string)]) by reflexivity.
  assert (Hb : get_values_between (table rows3 11) (150 + 1) 200
               = Ok [(200, "c"%string)]) by reflexivity.
  split; [exact H1|]. split; [exact H2|]. split; [exact H3|].
  split; [exact Ha|]. split; [exact Hb|].
  split; [|split].
  - exact (proj2 (proj1 (get_values_between_app fst id rows3 11) 50 150 200
                    H1 H2) _ _ Ha Hb).
  - exact (proj2 (get_values_between_app fst id rows3 11) 151 150 H3).
  - exact (proj1 (proj1 (get_values_between_app fst (fun date => date + 1000)
                           rows3 11) 1050 1150 1200 H4 H5)).
Defined.



End TablesMore.

(** ** CryptoExchange: the first and the last transaction *)

Module ExchangeMore.
Import Py PyFacts TablesFacts Models Exchanges Samples.

(** A scan that keeps the entry of least key, and the earlier of two
    entries of the same key. *)
Lemma foldl_least {A} (key : A -> Z) (l : list A) (best : A) :
  let r := foldl (fun best x => if key x <? key best then x else best) best l in
  (r = best /\ Forall (fun x => key best <= key x) l)
  \/ (exists pre post,
        l = pre ++ r :: post /\ key r < key best
        /\ Forall (fun x => key r < key x) pre
        /\ Forall (fun x => key r <= key x) post).
Proof.
  cbv zeta. revert best. induction l as [|x l IH]; intros best; simpl.
  - left. by split.
  - destruct (Z.ltb_spec (key x) (key best)) as [Hlt|Hge].
    + destruct (IH x) as [[-> Hall]|(pre & post & E & Hr & Hpre & Hpost)].
      * right. exists [], l. split; [done|]. split; [done|]. by split.
      * right. exists (x :: pre), post.
        split; [simpl; by f_equal|]. split; [lia|].
        split; [by constructor|done].
    + destruct (IH best) as [[-> Hall]|(pre & post & E & Hr & Hpre & Hpost)].
      * left. split; [done|]. by constructor.
      * right. exists (x :: pre), post.
        split; [simpl; by f_equal|]. split; [done|].
        split; [|done]. constructor; [lia|done].
Qed.

(** The transaction the scan of [get_first_transaction] ends with. *)
Lemma first_scan (t : Transaction) (txs : list Transaction) :
  exists r pre post,
    foldl (fun first transaction =>
             if date transaction <? date first then transaction else first)
          t (t :: txs) = r
    /\ t :: txs = pre ++ r :: post
    /\ Forall (fun x => date r < date x) pre
    /\ Forall (fun x => date r <= date x) post.
Proof.
  simpl. rewrite Z.ltb_irrefl.
  destruct (foldl_least date txs t)
    as [[E Hall]|(pre & post & E & Hr & Hpre & Hpost)]; eexists _; cbv zeta in *.
  - exists [], txs. split; [exact E|]. by split.
  - exists (t :: pre), post. split; [reflexivity|].
    split; [simpl; by f_equal|]. split; [|done]. by constructor.
Qed.

(** The same scan on the dates reversed finds the last transaction. *)
Lemma last_scan (t : Transaction) (txs : list Transaction) :
  exists r pre post,
    foldl (fun last transaction =>
             if date last <? date transaction then transaction else last)
          t (t :: txs) = r
    /\ t :: txs = pre ++ r :: post
    /\ Forall (fun x => date x < date r) pre
    /\ Forall (fun x => date x <= date r) post.
Proof.
  assert (E : forall l b,
    foldl (fun last transaction =>
             if date last <? date transaction then transaction else last) b l
    = foldl (fun best x => if (fun x => - date x) x <? (fun x => - date x) best
                           then x else best) b l).
  { induction l as [|x l IH]; intros b; simpl; [done|]. rewrite IH.
    destruct (Z.ltb_spec (date b) (date x)), (Z.ltb_spec (- date x) (- date b));
      try done; lia. }
  rewrite E. simpl. rewrite Z.ltb_irrefl.
  destruct (foldl_least (fun x => - date x) txs t)
    as [[E' Hall]|(pre & post & E' & Hr & Hpre & Hpost)]; eexists _;
    cbv zeta in *.
  - exists [], txs. split; [exact E'|]. split; [done|]. split; [done|].
    eapply Forall_impl; [exact Hall|]. simpl. intros x. lia.
  - exists (t :: pre), post. split; [reflexivity|].
    split; [simpl; by f_equal|]. split.
    + constructor; [lia|]. eapply Forall_impl; [exact Hpre|]. simpl. intros x. lia.
    + eapply Forall_impl; [exact Hpost|]. simpl. intros x. lia.
Qed.

Lemma init_transactions txs name exchange :
  init txs name = Ok exchange ->
  exists t txs', txs = t :: txs' /\ transactions exchange = t :: txs'.
Proof.
  unfold init. destruct txs as [|t txs']; [done|]. intros [= <-]. by eexists _, _.
Qed.

(** X4. An exchange is built from at least one transaction (an empty list
    is a [ValueError]), and on an exchange that was built
    [get_first_transaction] does not raise: it returns a transaction of
    the exchange with the earliest date, and of several with that date
    the one that comes first in the list. *)
Theorem get_first_transaction_spec txs name exchange :
  init txs name = Ok exchange ->
  txs <> [] /\ init [] name = Raise ValueError
  /\ (0 < get_transactions_count exchange)%nat
  /\ exists first pre post,
       get_first_transaction exchange = Ok first
       /\ transactions exchange = pre ++ first :: post
       /\ Forall (fun x => date first < date x) pre
       /\ Forall (fun x => date first <= date x) post.
Proof.
  intros Hinit.
  apply init_transactions in Hinit as (t & txs' & -> & Ht).
  split; [done|]. split; [done|].
  unfold get_transactions_count, get_first_transaction. rewrite Ht.
  split; [simpl; lia|].
  destruct (first_scan t txs') as (r & pre & post & Hr & E & Hpre & Hpost).
  exists r, pre, post. split; [|by split].
  change (list_getitem (t :: txs') 0) with (Ok t). simpl in *. by rewrite Hr.
Qed.

(** X5. On an exchange that was built, [get_last_transaction] does not
    raise: it returns a transaction of the exchange with the latest date,
    and of several with that date the one that comes first in the list. *)
Theorem get_last_transaction_spec txs name exchange :
  init txs name = Ok exchange ->
  exists last pre post,
    get_last_transaction exchange = Ok last
    /\ transactions exchange = pre ++ last :: post
    /\ Forall (fun x => date x < date last) pre
    /\ Forall (fun x => date x <= date last) post.
Proof.
  intros Hinit.
  apply init_transactions in Hinit as (t & txs' & -> & Ht).
  unfold get_last_transaction. rewrite Ht.
  destruct (last_scan t txs') as (r & pre & post & Hr & E & Hpre & Hpost).
  exists r, pre, post. split; [|by split].
  change (list_getitem (t :: txs') 0) with (Ok t). simpl in *. by rewrite Hr.
Qed.

(** X6. Whenever both are returned, the first transaction is not after
    the last one, and every transaction of the exchange has its date
    between theirs. *)
Theorem first_before_last (exchange : CryptoExchange) first last :
  get_first_transaction exchange = Ok first ->
  get_last_transaction exchange = Ok last ->
  date first <= date last
  /\ forall t, t ∈ transactions exchange -> date first <= date t <= date last.
Proof.
  unfold get_first_transaction, get_last_transaction.
  destruct (transactions exchange) as [|t txs] eqn:Ht; [done|]. 
  change (list_getitem (t :: txs) 0) with (Ok t).
  destruct (first_scan t txs) as (f & pre & post & Hf & E & Hpre & Hpost).
  destruct (last_scan t txs) as (l & pre' & post' & Hl & E' & Hpre' & Hpost').
  simpl in Hf, Hl |- *. rewrite Hf, Hl. intros [= <-] [= <-].
  assert (Hall : forall x, x ∈ t :: txs -> date f <= date x <= date l).
  { intros x Hx. split.
    - rewrite E in Hx. rewrite Forall_forall in Hpre, Hpost.
      apply elem_of_app in Hx as [Hx|Hx]; [specialize (Hpre x Hx); lia|].
      apply elem_of_cons in Hx as [->|Hx]; [lia|by apply Hpost].
    - rewrite E' in Hx. rewrite Forall_forall in Hpre', Hpost'.
      apply elem_of_app in Hx as [Hx|Hx]; [specialize (Hpre' x Hx); lia|].
      apply elem_of_cons in Hx as [->|Hx]; [lia|by apply Hpost']. }
  split; [|done].
  assert (Hin : f ∈ t :: txs).
  { rewrite E. apply elem_of_app. right. left. }
  specialize (Hall f Hin). lia.
Qed.

(** The first of the four deposits is the second in the list, the earlier
    of the two of date 1; the last is the first in the list. *)
Lemma get_first_transaction_spec_witness :
  init (transactions four_deposits) "binance" = Ok four_deposits
  /\ transactions four_deposits <> []
  /\ init [] "binance" = Raise ValueError
  /\ (0 < get_transactions_count four_deposits)%nat
  /\ exists first pre post,
       get_first_transaction four_deposits = Ok first
       /\ transactions four_deposits = pre ++ first :: post
       /\ Forall (fun x => date first < date x) pre
       /\ Forall (fun x => date first <= date x) post.
Proof.
  split; [reflexivity|].
  exact (get_first_transaction_spec (transactions four_deposits) "binance"
           four_deposits eq_refl).
Defined.

Lemma get_last_transaction_spec_witness :
  init (transactions four_deposits) "binance" = Ok four_deposits
  /\ exists last pre post,
       get_last_transaction four_deposits = Ok last
       /\ transactions four_deposits = pre ++ last :: post
       /\ Forall (fun x => date x < date last) pre
       /\ Forall (fun x => date x <= date last) post.
Proof.
  split; [reflexivity|].
  exact (get_last_transaction_spec (transactions four_deposits) "binance"
           four_deposits eq_refl).
Defined.

Lemma first_before_last_witness :
  get_first_transaction four_deposits = Ok (deposit_at 1)
  /\ get_last_transaction four_deposits = Ok (deposit_at 3)
  /\ date (deposit_at 1) <= date (deposit_at 3)
  /\ forall t, t ∈ transactions four_deposits ->
                date (deposit_at 1) <= date t <= date (deposit_at 3).
Proof.
  split; [reflexivity|]. split; [reflexivity|].
  exact (first_before_last four_deposits (deposit_at 1) (deposit_at 3)
           eq_refl eq_refl).
Defined.

End ExchangeMore.

(** ** Portfolio.get_balances_from_deltas: the balances *)

Module DeltasMore.
Import Py PyFacts TablesFacts Exchanges Samples DeltasFacts.

Section Deltas.
Context {V : Type}.
Variable add : V -> V -> V.

Abbreviation delta := (delta V).
Abbreviation known := (@known V).
Abbreviation replayed := (@replayed V).
Abbreviation numbers := (@numbers V).
Abbreviation number_of := (@number_of V).
Abbreviation sum_of := (sum_of add).

Lemma known_known (deltas : list delta) : known (known deltas) = known deltas.
Proof.
  unfold Exchanges.known. induction deltas as [|d deltas IH]; [done|]. simpl.
  destruct (negb (is_NAN (delta_value d))) eqn:E; [|done].
  simpl. by rewrite E, IH.
Qed.

Lemma replayed_not_nil (deltas : list delta) :
  known deltas <> [] -> exists first rest, replayed deltas = first :: rest.
Proof.
  intros Hk. destruct (replayed deltas) as [|first rest] eqn:Hr; [|by eexists _, _].
  exfalso. apply Hk. apply Permutation_nil_r. symmetry.
  rewrite <- Hr. apply sorted_Permutation.
Qed.

(** X7. When the value of some delta is known, [get_balances_from_deltas]
    returns one balance for each known delta, in ascending order of the
    dates: the balance of place [i] has the date of the [i]-th known delta
    in that order, and as value the sum of the known values up to it,
    added from the left; the last balance carries the sum of all the
    known values. *)
Theorem get_balances_from_deltas_prefix_sums (deltas : list delta) :
  known deltas <> [] ->
  exists balances,
    get_balances_from_deltas add deltas = Ok balances
    /\ replayed deltas ≡ₚ known deltas
    /\ date_time <$> balances = date_time <$> replayed deltas
    /\ StronglySorted Z.le (date_time <$> balances)
    /\ (forall i d, replayed deltas !! i = Some d ->
          exists s, sum_of (numbers (take (S i) (replayed deltas))) = Some s
                    /\ balances !! i
                       = Some {| date_time := date_time d;
                                 delta_value := Number s |})
    /\ last balances ≫= number_of = sum_of (numbers (replayed deltas)).
Proof.
  intros Hk.
  destruct (get_balances_from_deltas_known add deltas Hk)
    as (balances & Hb & Hlen & Hi & Hlast).
  exists balances. split; [done|].
  split; [apply sorted_Permutation|].
  assert (Hd : date_time <$> balances = date_time <$> replayed deltas).
  { apply list_eq. intros i. rewrite !list_lookup_fmap.
    destruct (replayed deltas !! i) as [d|] eqn:Hr.
    - destruct (Hi i d Hr) as (s & _ & ->). done.
    - apply lookup_ge_None in Hr. rewrite <- Hlen in Hr.
      by rewrite (lookup_ge_None_2 balances i). }
  split; [done|]. split; [|by split].
  rewrite Hd.
  apply (StronglySorted_fmap date_time (key_le date_time) Z.le); [done|].
  apply sorted_StronglySorted.
Qed.

(** X8. Deltas of unknown value do not count: when some value is known,
    the balances are those of the known deltas alone. *)
Theorem get_balances_from_deltas_ignores_unknown (deltas : list delta) :
  known deltas <> [] ->
  get_balances_from_deltas add deltas
  = get_balances_from_deltas add (known deltas).
Proof.
  intros Hk. destruct (replayed_not_nil deltas Hk) as (first & rest & Hr).
  assert (Hr' : replayed (known deltas) = first :: rest).
  { unfold Exchanges.replayed in *. by rewrite known_known. }
  by rewrite (get_balances_from_deltas_replayed add _ _ _ Hr),
    (get_balances_from_deltas_replayed add _ _ _ Hr').
Qed.

Section Commutative.
(** Numbers whose addition is commutative and associative. *)
Hypothesis add_comm : forall x y, add x y = add y x.
Hypothesis add_assoc : forall x y z, add (add x y) z = add x (add y z).

Lemma foldl_add_Permutation (l l' : list V) :
  l ≡ₚ l' -> forall a, foldl add a l = foldl add a l'.
Proof.
  induction 1 as [|x l l' Hp IH|x y l|l l' l'' Hp1 IH1 Hp2 IH2];
    intros a; simpl.
  - done.
  - apply IH.
  - f_equal. by rewrite !add_assoc, (add_comm x y).
  - by rewrite IH1.
Qed.

Lemma foldl_add_cons (l : list V) a x :
  foldl add (add a x) l = add a (foldl add x l).
Proof.
  revert x. induction l as [|y l IH]; intros x; simpl; [done|].
  by rewrite add_assoc, IH.
Qed.

Lemma sum_of_Permutation (l l' : list V) : l ≡ₚ l' -> sum_of l = sum_of l'.
Proof.
  induction 1 as [|x l l' Hp IH|x y l|l l' l'' Hp1 IH1 Hp2 IH2]; simpl.
  - done.
  - f_equal. by apply foldl_add_Permutation.
  - f_equal. by rewrite (add_comm y x).
  - by rewrite IH1.
Qed.

(** X9. Where the addition of the values is commutative and associative
    (as it is for exact numbers), the last balance does not depend on the
    order in which the deltas are given, be their dates different or
    not. *)
Theorem final_balance_Permutation (deltas deltas' : list delta) :
  deltas ≡ₚ deltas' ->
  known deltas <> [] ->
  exists balances balances',
    get_balances_from_deltas add deltas = Ok balances
    /\ get_balances_from_deltas add deltas' = Ok balances'
    /\ last balances ≫= number_of = last balances' ≫= number_of
    /\ last balances ≫= number_of = sum_of (numbers (known deltas)).
Proof.
  intros Hp Hk.
  assert (Hpk : known deltas ≡ₚ known deltas') by by apply filter_Permutation.
  assert (Hk' : known deltas' <> []).
  { intros E. rewrite E in Hpk. by apply Permutation_nil_r in Hpk. }
  destruct (get_balances_from_deltas_known add deltas Hk)
    as (balances & Hb & _ & _ & Hlast).
  destruct (get_balances_from_deltas_known add deltas' Hk')
    as (balances' & Hb' & _ & _ & Hlast').
  exists balances, balances'. split; [done|]. split; [done|].
  assert (Hn : forall ds : list delta,
    sum_of (numbers (replayed ds)) = sum_of (numbers (known ds))).
  { intros ds. apply sum_of_Permutation. unfold Exchanges.numbers.
    apply omap_Permutation, sorted_Permutation. }
  rewrite Hlast, Hlast', !Hn. split; [|done].
  apply sum_of_Permutation. unfold Exchanges.numbers.
  by apply omap_Permutation.
Qed.

End Commutative.
End Deltas.

(** Two known deltas and an unknown one. *)
Lemma get_balances_from_deltas_prefix_sums_witness :
  known [delta_of 2 (-2); unknown_at 0; delta_of 1 5] <> []
  /\ exists balances,
       get_balances_from_deltas Z.add [delta_of 2 (-2); unknown_at 0; delta_of 1 5]
       = Ok balances
       /\ replayed [delta_of 2 (-2); unknown_at 0; delta_of 1 5]
          ≡ₚ known [delta_of 2 (-2); unknown_at 0; delta_of 1 5]
       /\ date_time <$> balances
          = date_time <$> replayed [delta_of 2 (-2); unknown_at 0; delta_of 1 5]
       /\ StronglySorted Z.le (date_time <$> balances)
       /\ (forall i d,
             replayed [delta_of 2 (-2); unknown_at 0; delta_of 1 5] !! i = Some d ->
             exists s,
               sum_of Z.add
                 (numbers (take (S i)
                    (replayed [delta_of 2 (-2); unknown_at 0; delta_of 1 5])))
               = Some s
               /\ balances !! i
                  = Some {| date_time := date_time d; delta_value := Number s |})
       /\ last balances ≫= number_of
          = sum_of Z.add
              (numbers (replayed [delta_of 2 (-2); unknown_at 0; delta_of 1 5])).
Proof.
  assert (Hk : known [delta_of 2 (-2); unknown_at 0; delta_of 1 5] <> [])
    by discriminate.
  split; [exact Hk|].
  exact (get_balances_from_deltas_prefix_sums Z.add _ Hk).
Defined.

Lemma get_balances_from_deltas_ignores_unknown_witness :
  known [delta_of 2 (-2); unknown_at 0; delta_of 1 5] <> []
  /\ get_balances_from_deltas Z.add [delta_of 2 (-2); unknown_at 0; delta_of 1 5]
     = get_balances_from_deltas Z.add
         (known [delta_of 2 (-2); unknown_at 0; delta_of 1 5]).
Proof.
  assert (Hk : known [delta_of 2 (-2); unknown_at 0; delta_of 1 5] <> [])
    by discriminate.
  split; [exact Hk|].
  exact (get_balances_from_deltas_ignores_unknown Z.add _ Hk).
Defined.

(** Two deltas of the same date, in the two orders. *)
Lemma final_balance_Permutation_witness :
  (forall x y, x + y = y + x)
  /\ (forall x y z, x + y + z = x + (y + z))
  /\ [delta_of 1 5; delta_of 1 (-2)] ≡ₚ [delta_of 1 (-2); delta_of 1 5]
  /\ known [delta_of 1 5; delta_of 1 (-2)] <> []
  /\ exists balances balances',
       get_balances_from_deltas Z.add [delta_of 1 5; delta_of 1 (-2)]
       = Ok balances
       /\ get_balances_from_deltas Z.add [delta_of 1 (-2); delta_of 1 5]
          = Ok balances'
       /\ last balances ≫= number_of = last balances' ≫= number_of
       /\ last balances ≫= number_of
          = sum_of Z.add (numbers (known [delta_of 1 5; delta_of 1 (-2)])).
Proof.
  assert (Hp : [delta_of 1 5; delta_of 1 (-2)]
                 ≡ₚ [delta_of 1 (-2); delta_of 1 5]) by apply Permutation_swap.
  assert (Hk : known [delta_of 1 5; delta_of 1 (-2)] <> []) by discriminate.
  split; [exact Z.add_comm|]. split; [exact (fun x y z => eq_sym (Z.add_assoc x y z))|].
  split; [exact Hp|]. split; [exact Hk|].
  exact (final_balance_Permutation Z.add Z.add_comm
           (fun x y z => eq_sym (Z.add_assoc x y z)) _ _ Hp Hk).
Defined.

End DeltasMore.

(** ** The exchange parsers: what is extracted *)

Module ParsersMore.
Import Py Models Exchanges Parsers Samples ParsersFacts.

(** *** Symbols *)

Lemma substring_all s : substring 0 (String.length s) s = s.
Proof. induction s as [|c s IH]; simpl; [done|]. by rewrite IH. Qed.

Lemma substring_split s b :
  (b <= String.length s)%nat ->
  substring 0 b s +:+ substring b (String.length s - b) s = s.
Proof.
  revert b. induction s as [|c s IH]; intros [|b] Hb; simpl in *; try lia.
  - done.
  - by rewrite substring_all.
  - change (String c (substring 0 b s +:+ substring b (String.length s - b) s)
            = String c s).
    f_equal. apply IH. lia.
Qed.

Lemma slice_bound_le n k : (slice_bound n k <= n)%nat.
Proof. unfold slice_bound. destruct (Z.ltb_spec k 0); lia. Qed.

(** A string cut at any place is the two parts put together. *)
Lemma slice_app s k : slice_to s k +:+ slice_from s k = s.
Proof. unfold slice_to, slice_from. apply substring_split, slice_bound_le. Qed.

Lemma slice_from_end_length s : (String.length (slice_from s (-3)) <= 3)%nat.
Proof.
  unfold slice_from.
  etrans; [apply substring_length_le|]. unfold slice_bound.
  change (-3 <? 0) with true. cbv iota. lia.
Qed.

Lemma slice_to_start_length s : (String.length (slice_to s 3) <= 3)%nat.
Proof.
  unfold slice_to.
  etrans; [apply substring_length_le|]. unfold slice_bound.
  change (3 <? 0) with false. cbv iota. lia.
Qed.

Ltac by_cases :=
  simpl in *; unfold mbind, result_bind, as_str in *;
  repeat (case_match; simpl in *; simplify_eq).

(** X10. The two coins of a Binance trade spell the market symbol: the
    coin cut from its end, of three characters at most, follows the
    other; the buyer gets the first for the second, the seller the
    second for the first. *)
Theorem binance_trade_symbol raw coin_buy amount_buy coin_sell amount_sell :
  holds (Binance.is_trade raw) ->
  Binance.get_coins_amounts raw = Ok (coin_buy, amount_buy, coin_sell, amount_sell) ->
  exists market base quote is_buyer,
    getitem raw "symbol" = Ok (JStr market)
    /\ getitem raw "isBuyer" = Ok is_buyer
    /\ base +:+ quote = market
    /\ (String.length quote <= 3)%nat
    /\ (if truthy is_buyer
        then coin_buy = JStr base /\ coin_sell = JStr quote
        else coin_buy = JStr quote /\ coin_sell = JStr base).
Proof.
  unfold holds, Binance.get_coins_amounts. intros ->. by_cases.
  all: intros [= <- <- <- <-]; eexists _, _, _, _;
    (split; [reflexivity|]); (split; [reflexivity|]);
    (split; [apply slice_app|]); (split; [apply slice_from_end_length|]).
  all: match goal with H : truthy _ = _ |- _ => rewrite H end; done.
Qed.

(** X11. The two coins of a Bitfinex trade spell the market symbol: the
    coin cut from its start, of three characters at most, comes before
    the other; a "Buy" gets the first for the second, any other trade the
    second for the first. *)
Theorem bitfinex_trade_symbol raw coin_buy amount_buy coin_sell amount_sell :
  holds (Bitfinex.is_trade raw) ->
  Bitfinex.get_coins_amounts raw = Ok (coin_buy, amount_buy, coin_sell, amount_sell) ->
  exists market base quote type,
    getitem raw "symbol" = Ok (JStr market)
    /\ getitem raw "type" = Ok type
    /\ base +:+ quote = market
    /\ (String.length base <= 3)%nat
    /\ (if eq_str type "Buy"
        then coin_buy = JStr base /\ coin_sell = JStr quote
        else coin_buy = JStr quote /\ coin_sell = JStr base).
Proof.
  unfold holds, Bitfinex.get_coins_amounts. intros ->. by_cases.
  all: intros [= <- <- <- <-]; eexists _, _, _, _;
    (split; [reflexivity|]); (split; [reflexivity|]);
    (split; [apply slice_app|]); (split; [apply slice_to_start_length|]).
  all: match goal with H : eq_str _ _ = _ |- _ => rewrite H end; done.
Qed.


(** *** Amounts *)

(** X12. The amounts that the Coinbase and the GDAX parser extract are
    never negative, whatever the signs in the record. *)
Theorem coinbase_amounts_nonnegative raw coin_buy amount_buy coin_sell amount_sell :
  Coinbase.get_coins_amounts raw = Ok (coin_buy, amount_buy, coin_sell, amount_sell)
  \/ Gdax.get_coins_amounts raw = Ok (coin_buy, amount_buy, coin_sell, amount_sell) ->
  (0 <= amount_buy)%Q /\ (0 <= amount_sell)%Q.
Proof.
  unfold Coinbase.get_coins_amounts, Gdax.get_coins_amounts,
    Coinbase.is_trade, Coinbase.is_deposit, Coinbase.is_withdrawal.
  intros [H|H]; revert H; by_cases; intros [= <- <- <- <-];
    split; try apply Qabs_nonneg; apply Qle_refl.
Qed.

(** X13. A commission that the Bitfinex parser returns belongs to a trade
    or to a deposit, never to a withdrawal; it keeps the record it was
    read from, has a coin, and an amount that is not negative, whatever
    the sign in the record. *)
Theorem bitfinex_commission raw c :
  Bitfinex.get_commission raw = Ok (Some c) ->
  source_record c = JDict raw
  /\ truthy (commission_coin c) = true
  /\ (exists amount, commission_amount c = JNum amount /\ (0 <= amount)%Q)
  /\ (holds (Bitfinex.is_trade raw) \/ holds (Bitfinex.is_deposit raw))
  /\ ~ holds (Bitfinex.is_withdrawal raw).
Proof.
  intros Hc.
  assert (Hclass : holds (Bitfinex.is_trade raw) \/ holds (Bitfinex.is_deposit raw)).
  { unfold holds.
    destruct (Bitfinex.is_trade raw) as [[]|] eqn:Et; [by left| |];
      [destruct (Bitfinex.is_deposit raw) as [[]|] eqn:Ed; [by right| |]|];
      exfalso; revert Hc;
      unfold Bitfinex.get_commission, Bitfinex.get_fee, or_else;
      rewrite Et, ?Ed; simpl; rewrite ?Et; done. }
  assert (Hnw : ~ holds (Bitfinex.is_withdrawal raw)).
  { pose proof (bitfinex_exclusive raw) as (_ & H1 & H2). tauto. }
  split; [|split; [|split; [|done]]]; revert Hc;
    unfold Bitfinex.get_commission, Bitfinex.get_fee, or_else;
    by_cases; intros [= <-]; simpl; try done;
    eexists; (split; [reflexivity|apply Qabs_nonneg]).
Qed.

(** X14. The Coinbase parser never fails on a commission: a record
    without "network" (or with any other defect) has none, and a
    commission that is returned keeps [raw["network"]] as its source. *)
Theorem coinbase_commission ciso raw :
  (exists commission, Coinbase.get_commission ciso raw = Ok commission)
  /\ (contains "network" raw = false ->
      Coinbase.get_commission ciso raw = Ok None)
  /\ (forall c, Coinbase.get_commission ciso raw = Ok (Some c) ->
                getitem raw "network" = Ok (source_record c)
                /\ Coinbase.get_date ciso raw = Ok (commission_date c)).
Proof.
  split; [apply coinbase_get_commission_returns|].
  unfold Coinbase.get_commission, try_except, contains, getitem.
  split.
  - by_cases; done.
  - intros c. by_cases; try done. by intros [= <-].
Qed.

(** *** Dates *)

(** X15. The Binance parser reads the date of a trade from "time", of a
    deposit from "insertTime", of a withdrawal from "successTime" (not
    from "applyTime", which makes it a withdrawal): a record without the
    field raises [KeyError]; for an integer of milliseconds the result is
    what [datetime.fromtimestamp] makes of its thousandth, a date or an
    exception; no date is returned in another way, and a record of no
    class has no date. *)
Theorem binance_get_date_spec truediv fromtimestamp raw :
  let parser := Binance.parser truediv fromtimestamp in
  let reads_ms := Binance.reads_ms truediv fromtimestamp raw in
  (classify parser raw = Ok Trade -> reads_ms "time")
  /\ (classify parser raw = Ok Deposit -> reads_ms "insertTime")
  /\ (classify parser raw = Ok Withdrawal -> reads_ms "successTime")
  /\ (classify parser raw = Ok Unknown ->
      Binance.get_date truediv fromtimestamp raw = Ok None).
Proof.
  unfold classify, Binance.reads_ms, Binance.get_date, Binance.date_of_ms,
    Binance.parser, Binance.is_trade, Binance.is_deposit, Binance.is_withdrawal,
    contains, getitem.
  cbv zeta. repeat split; by_cases; try done;
    unfold fmap, result_fmap in *; by_cases; intros; simplify_eq;
    repeat match goal with H : _ = _ |- _ => rewrite H end;
    simpl; eauto 10.
Qed.

(** X16. A commission that the Binance parser returns carries the
    "commissionAsset" and the "commission" of the record, the record
    itself and its date; if the record is a trade the commission is
    marked successful. *)
Theorem binance_commission truediv fromtimestamp raw c :
  Binance.get_commission truediv fromtimestamp raw = Ok (Some c) ->
  exists amount,
    getitem raw "commissionAsset" = Ok (commission_coin c)
    /\ getitem raw "commission" ≫= float = Ok amount
    /\ commission_amount c = JNum amount
    /\ source_record c = JDict raw
    /\ Binance.get_date truediv fromtimestamp raw = Ok (commission_date c)
    /\ Binance.is_successful raw = Ok (commission_successful c)
    /\ (holds (Binance.is_trade raw) -> commission_successful c = true).
Proof.
  unfold Binance.get_commission.
  destruct (contains "commissionAsset" raw); [|done].
  destruct (getitem raw "commissionAsset") as [coin|]; [|done]. simpl.
  destruct (getitem raw "commission" ≫= float) as [amount|] eqn:Ha; [|done]. simpl.
  destruct (Binance.get_date truediv fromtimestamp raw) as [d|]; [|done]. simpl.
  destruct (Binance.is_successful raw) as [s|] eqn:Hs; [|done]. simpl.
  intros [= <-]. simpl. exists amount. repeat split; try done.
  unfold holds, Binance.is_successful, Binance.is_trade in *.
  intros [= Ht]. simpl in Hs. rewrite Ht in Hs. simpl in Hs.
  injection Hs as <-. unfold contains.
  revert Ha. unfold getitem. by_cases; done.
Qed.

(** *** Records of no class *)

(** X17. A record of no class is reported as not successful by the Binance
    and by the Bitfinex parser. *)
Theorem unclassified_unsuccessful truediv fromtimestamp raw :
  (classify (Binance.parser truediv fromtimestamp) raw = Ok Unknown ->
   Binance.is_successful raw = Ok false)
  /\ (classify Bitfinex.parser raw = Ok Unknown ->
      Bitfinex.is_successful raw = Ok false).
Proof.
  unfold classify, Binance.parser, Bitfinex.parser, Binance.is_successful,
    Bitfinex.is_successful, or_else, Binance.is_trade, Binance.is_deposit,
    Binance.is_withdrawal, Bitfinex.is_trade, Bitfinex.is_deposit,
    Bitfinex.is_withdrawal.
  split; by_cases; done.
Qed.

(** X18. For Coinbase, a record that is no purchase and no sale and whose
    two amounts differ in sign is neither a deposit nor a withdrawal:
    nothing is extracted from it. *)
Theorem coinbase_mixed_signs raw amount native_amount :
  Coinbase.is_trade raw = Ok false ->
  Coinbase.amount_of raw "amount" = Ok amount ->
  Coinbase.amount_of raw "native_amount" = Ok native_amount ->
  ((0 <= amount)%Q /\ (native_amount < 0)%Q)
  \/ ((amount < 0)%Q /\ (0 <= native_amount)%Q) ->
  Coinbase.is_deposit raw = Ok false
  /\ Coinbase.is_withdrawal raw = Ok false
  /\ Coinbase.get_coins_amounts raw = Ok (JNone, 0%Q, JNone, 0%Q).
Proof.
  intros Ht Ha Hn Hsign.
  unfold Coinbase.get_coins_amounts, Coinbase.is_deposit, Coinbase.is_withdrawal.
  rewrite Ht, Ha, Hn. simpl.
  assert (Hd : Qle_bool 0 amount && Qle_bool 0 native_amount = false).
  { apply andb_false_iff.
    destruct Hsign as [[_ H]|[H _]]; [right|left];
      apply not_true_is_false; rewrite Qle_bool_iff; by apply Qlt_not_le. }
  assert (Hw : Qlt_bool amount 0 && Qlt_bool native_amount 0 = false).
  { apply andb_false_iff. unfold Qlt_bool.
    destruct Hsign as [[H _]|[_ H]]; [left|right];
      apply negb_false_iff; by apply Qle_bool_iff. }
  by rewrite Hd, Hw.
Qed.

(** *** Sample records *)

Lemma binance_trade_symbol_witness :
  holds (Binance.is_trade binance_btcusdt)
  /\ Binance.get_coins_amounts binance_btcusdt
     = Ok (JStr "BTCU", (0 + 200000000 / 100000000)%Q,
           JStr "SDT",
           ((0 + 1000050000000 / 100000000) * (0 + 200000000 / 100000000))%Q)
  /\ exists market base quote is_buyer,
       getitem binance_btcusdt "symbol" = Ok (JStr market)
       /\ getitem binance_btcusdt "isBuyer" = Ok is_buyer
       /\ base +:+ quote = market
       /\ (String.length quote <= 3)%nat
       /\ (if truthy is_buyer
           then JStr "BTCU" = JStr base /\ JStr "SDT" = JStr quote
           else JStr "BTCU" = JStr quote /\ JStr "SDT" = JStr base).
Proof.
  split; [reflexivity|]. split; [reflexivity|].
  exact (binance_trade_symbol binance_btcusdt _ _ _ _ eq_refl eq_refl).
Defined.

Lemma bitfinex_trade_symbol_witness :
  holds (Bitfinex.is_trade (bitfinex_trade "0.0012"))
  /\ Bitfinex.get_coins_amounts (bitfinex_trade "0.0012")
     = Ok (JStr "USD", ((0 + 10 / 10) * (0 + 95000 / 10))%Q,
           JStr "BTC", (0 + 10 / 10)%Q)
  /\ exists market base quote type,
       getitem (bitfinex_trade "0.0012") "symbol" = Ok (JStr market)
       /\ getitem (bitfinex_trade "0.0012") "type" = Ok type
       /\ base +:+ quote = market
       /\ (String.length base <= 3)%nat
       /\ (if eq_str type "Buy"
           then JStr "USD" = JStr base /\ JStr "BTC" = JStr quote
           else JStr "USD" = JStr quote /\ JStr "BTC" = JStr base).
Proof.
  split; [reflexivity|]. split; [reflexivity|].
  exact (bitfinex_trade_symbol (bitfinex_trade "0.0012") _ _ _ _ eq_refl eq_refl).
Defined.

Lemma coinbase_amounts_nonnegative_witness :
  (Coinbase.get_coins_amounts coinbase_buy
   = Ok (JStr "BTC", Qabs (0 + 100000000 / 100000000),
         JStr "USD", Qabs (0 + 950000 / 100))
   \/ Gdax.get_coins_amounts coinbase_buy
      = Ok (JStr "BTC", Qabs (0 + 100000000 / 100000000),
            JStr "USD", Qabs (0 + 950000 / 100)))
  /\ (0 <= Qabs (0 + 100000000 / 100000000))%Q
  /\ (0 <= Qabs (0 + 950000 / 100))%Q.
Proof.
  assert (H : Coinbase.get_coins_amounts coinbase_buy
              = Ok (JStr "BTC", Qabs (0 + 100000000 / 100000000),
                    JStr "USD", Qabs (0 + 950000 / 100))) by reflexivity.
  split; [left; exact H|].
  exact (coinbase_amounts_nonnegative coinbase_buy _ _ _ _ (or_introl H)).
Defined.

Lemma bitfinex_commission_witness :
  exists c,
    Bitfinex.get_commission bitfinex_deposit = Ok (Some c)
    /\ source_record c = JDict bitfinex_deposit
    /\ truthy (commission_coin c) = true
    /\ (exists amount, commission_amount c = JNum amount /\ (0 <= amount)%Q)
    /\ (holds (Bitfinex.is_trade bitfinex_deposit)
        \/ holds (Bitfinex.is_deposit bitfinex_deposit))
    /\ ~ holds (Bitfinex.is_withdrawal bitfinex_deposit).
Proof.
  eexists. split; [reflexivity|].
  exact (bitfinex_commission bitfinex_deposit _ eq_refl).
Defined.

(** The purchase is dated by its "time"; the withdrawal that has not
    succeeded has no "successTime", and no date can be read. *)
Lemma binance_get_date_spec_witness :
  classify (Binance.parser exact_truediv exact_fromtimestamp) binance_btcusdt
  = Ok Trade
  /\ Binance.get_date exact_truediv exact_fromtimestamp binance_btcusdt
     = Ok (Some 1514764800000000)
  /\ classify (Binance.parser exact_truediv exact_fromtimestamp) binance_applied
     = Ok Withdrawal
  /\ contains "successTime" binance_applied = false
  /\ Binance.get_date exact_truediv exact_fromtimestamp binance_applied
     = Raise KeyError.
Proof.
  pose proof (binance_get_date_spec exact_truediv exact_fromtimestamp) as H.
  destruct (H binance_btcusdt) as (Htrade & _).
  destruct (H binance_applied) as (_ & _ & Hwithdrawal & _).
  destruct (Htrade eq_refl) as (_ & Hread & _).
  destruct (Hwithdrawal eq_refl) as (Hmissing & _).
  split; [reflexivity|].
  split; [exact (Hread 1514764800000 eq_refl)|].
  split; [reflexivity|]. split; [reflexivity|exact (Hmissing eq_refl)].
Defined.

Lemma binance_commission_witness :
  exists c,
    Binance.get_commission exact_truediv exact_fromtimestamp binance_btcusdt
    = Ok (Some c)
    /\ exists amount,
         getitem binance_btcusdt "commissionAsset" = Ok (commission_coin c)
         /\ getitem binance_btcusdt "commission" ≫= float = Ok amount
         /\ commission_amount c = JNum amount
         /\ source_record c = JDict binance_btcusdt
         /\ Binance.get_date exact_truediv exact_fromtimestamp binance_btcusdt
            = Ok (commission_date c)
         /\ Binance.is_successful binance_btcusdt = Ok (commission_successful c)
         /\ (holds (Binance.is_trade binance_btcusdt) ->
             commission_successful c = true).
Proof.
  eexists. split; [reflexivity|].
  exact (binance_commission exact_truediv exact_fromtimestamp binance_btcusdt
           _ eq_refl).
Defined.

Lemma coinbase_mixed_signs_witness :
  Coinbase.is_trade coinbase_mixed = Ok false
  /\ Coinbase.amount_of coinbase_mixed "amount" = Ok (0 + 5 / 10)%Q
  /\ Coinbase.amount_of coinbase_mixed "native_amount"
     = Ok (- (0 + 475000 / 100))%Q
  /\ Coinbase.is_deposit coinbase_mixed = Ok false
  /\ Coinbase.is_withdrawal coinbase_mixed = Ok false
  /\ Coinbase.get_coins_amounts coinbase_mixed = Ok (JNone, 0%Q, JNone, 0%Q).
Proof.
  split; [reflexivity|]. split; [reflexivity|]. split; [reflexivity|].
  apply (coinbase_mixed_signs coinbase_mixed (0 + 5 / 10)%Q
           (- (0 + 475000 / 100))%Q eq_refl eq_refl eq_refl).
  left. split; [by vm_compute|reflexivity].
Defined.

End ParsersMore.

(** ** pyhodl/utils/misc.py *)

Module MiscFacts.
Import Py Misc Samples.

(** *** Differences and percentages *)


(** X19. [get_relative_delta] converts its arguments before it tests them
    for [None]: [None] as the new value is a [TypeError], [None] as the
    last value an exception too, never the result 0; a result that is
    returned is the difference of the two numbers read, and swapping the
    arguments gives the opposite number. *)
Theorem get_relative_delta_spec new last :
  get_relative_delta JNone last = Fail (Exception TypeError)
  /\ (exists e, get_relative_delta new JNone = Fail (Exception e))
  /\ (forall r, get_relative_delta new last = Return r ->
        exists a b, float new = Ok a /\ float last = Ok b /\ r = (a - b)%Q
                    /\ exists r', get_relative_delta last new = Return r'
                                  /\ (r' == - r)%Q).
Proof.
  unfold get_relative_delta. split; [done|]. split.
  - destruct (float new); simpl; eauto.
  - intros r. destruct (float new) as [a|]; [|done].
    destruct (float last) as [b|]; [|done]. simpl. intros [= <-].
    exists a, b. repeat split. eexists. split; [done|]. ring.
Qed.


(** *** Normalisation *)




(** *** Points of the same x-coordinate *)

Section Coordinates.
Context {X : Type} `{EqDecision X}.

Abbreviation buckets :=
  (foldl (fun coordinates (point : X * Q) =>
            bucket_add point.1 point.2 coordinates) []).

Lemma first_occurrences_snoc (xs : list X) x :
  first_occurrences (xs ++ [x])
  = if decide (x ∈ first_occurrences xs) then first_occurrences xs
    else first_occurrences xs ++ [x].
Proof. unfold first_occurrences. by rewrite foldl_app. Qed.

Lemma elem_of_first_occurrences (xs : list X) x :
  x ∈ first_occurrences xs <-> x ∈ xs.
Proof.
  unfold first_occurrences.
  induction xs as [|x' xs IH] using rev_ind; [done|].
  rewrite foldl_app. simpl. rewrite elem_of_app, list_elem_of_singleton, <- IH.
  destruct (decide (x' ∈ _)) as [Hin|Hin].
  - split; [tauto|]. intros [?| ->]; done.
  - by rewrite elem_of_app, list_elem_of_singleton.
Qed.

Lemma NoDup_first_occurrences (xs : list X) : NoDup (first_occurrences xs).
Proof.
  unfold first_occurrences.
  induction xs as [|x' xs IH] using rev_ind; [constructor|].
  rewrite foldl_app. simpl. destruct (decide (x' ∈ _)) as [Hin|Hin]; [done|].
  apply NoDup_app. split; [done|]. split; [|apply NoDup_singleton].
  intros x Hx ->%list_elem_of_singleton. done.
Qed.

Lemma first_occurrences_NoDup (xs : list X) :
  NoDup xs -> first_occurrences xs = xs.
Proof.
  unfold first_occurrences.
  induction xs as [|x' xs IH] using rev_ind; [done|].
  intros [Hxs [Hx _]]%NoDup_app. rewrite foldl_app. simpl.
  fold (first_occurrences xs). rewrite decide_False.
  - unfold first_occurrences. by rewrite IH.
  - rewrite elem_of_first_occurrences. intros Hin. apply (Hx x' Hin). left.
Qed.

Lemma bucket_of_app x (ps qs : list (X * Q)) :
  bucket_of x (ps ++ qs) = bucket_of x ps ++ bucket_of x qs.
Proof. unfold bucket_of. by rewrite filter_app, fmap_app. Qed.

Lemma bucket_of_singleton x (p : X * Q) :
  bucket_of x [p] = if decide (x = p.1) then [p.2] else [].
Proof.
  unfold bucket_of. rewrite filter_cons, filter_nil.
  destruct (decide (x = p.1)) as [->|Hne].
  - by rewrite decide_True.
  - rewrite decide_False; [done|]. intros E. by apply Hne.
Qed.

Lemma bucket_of_absent x (ps : list (X * Q)) : x ∉ ps.*1 -> bucket_of x ps = [].
Proof.
  intros Hx. unfold bucket_of.
  induction ps as [|p ps IH]; [done|].
  rewrite filter_cons. destruct (decide (p.1 = x)) as [E|E].
  - exfalso. apply Hx. rewrite <- E. left.
  - apply IH. intros Hin. apply Hx. by right.
Qed.

(** A new point changes the bucket of its x-coordinate, and adds the
    coordinate to the keys if it is new. *)
Lemma bucket_add_map (f : X -> list Q) (ks : list X) x y :
  NoDup ks -> (x ∉ ks -> f x = []) ->
  bucket_add x y ((fun k => (k, f k)) <$> ks)
  = (fun k => (k, if decide (k = x) then f k ++ [y] else f k))
      <$> (if decide (x ∈ ks) then ks else ks ++ [x]).
Proof.
  induction ks as [|k ks IH]; intros Hnd Hf.
  - simpl. rewrite decide_True by done.
    rewrite Hf; [done|apply not_elem_of_nil].
  - apply NoDup_cons in Hnd as [Hk Hnd]. rewrite fmap_cons. cbn [bucket_add].
    destruct (decide (x = k)) as [->|Hne].
    + rewrite decide_True by left. rewrite fmap_cons, decide_True by done.
      f_equal. apply list_fmap_ext. intros i k' Hk'.
      rewrite decide_False; [done|]. intros ->.
      apply Hk. by eapply list_elem_of_lookup_2.
    + rewrite IH; [|done|].
      * destruct (decide (x ∈ ks)) as [Hin|Hin].
        -- rewrite (decide_True (P := x ∈ k :: ks)) by by right.
           rewrite fmap_cons. by rewrite decide_False by done.
        -- rewrite (decide_False (P := x ∈ k :: ks)).
           ++ rewrite <- app_comm_cons, fmap_cons.
              by rewrite decide_False by done.
           ++ intros [?|?]%elem_of_cons; done.
      * intros Hin. apply Hf. intros [?|?]%elem_of_cons; done.
Qed.

(** The dict built by the first loop. *)
Lemma buckets_spec (ps : list (X * Q)) :
  buckets ps = (fun k => (k, bucket_of k ps)) <$> first_occurrences ps.*1.
Proof.
  induction ps as [|p ps IH] using rev_ind; [done|].
  rewrite foldl_app. simpl. rewrite IH.
  rewrite bucket_add_map.
  - rewrite fmap_app. simpl. rewrite first_occurrences_snoc.
    apply list_fmap_ext. intros i k Hk. f_equal.
    rewrite bucket_of_app, bucket_of_singleton.
    destruct (decide (k = p.1)); [done|by rewrite app_nil_r].
  - apply NoDup_first_occurrences.
  - rewrite elem_of_first_occurrences. apply bucket_of_absent.
Qed.

Lemma remove_same_coordinates_spec' (x_data : list X) (y_val : list Q) :
  (remove_same_coordinates x_data y_val).1
  = first_occurrences (zip x_data y_val).*1
  /\ (remove_same_coordinates x_data y_val).2
     = (fun x => average (bucket_of x (zip x_data y_val)))
         <$> (remove_same_coordinates x_data y_val).1.
Proof.
  unfold remove_same_coordinates. simpl. rewrite buckets_spec.
  rewrite <- !list_fmap_compose.
  assert (E : (fst ∘ (fun entry : X * list Q => (entry.1, average entry.2))
                   ∘ (fun k => (k, bucket_of k (zip x_data y_val))))
                <$> first_occurrences (zip x_data y_val).*1
              = first_occurrences (zip x_data y_val).*1).
  { rewrite <- (list_fmap_id (first_occurrences _)) at 2.
    by apply list_fmap_ext. }
  rewrite E. split; [done|]. by apply list_fmap_ext.
Qed.

(** X23. [remove_same_coordinates] returns each x-coordinate of the points
    once, in the order of first occurrence, and with each the average of
    the y-coordinates of all the points of that x; the points are the
    pairs of [zip], so what one list has more than the other is
    ignored. *)
Theorem remove_same_coordinates_spec (x_data : list X) (y_val : list Q) :
  let points := zip x_data y_val in
  let result := remove_same_coordinates x_data y_val in
  result.1 = first_occurrences points.*1
  /\ NoDup result.1
  /\ (forall x, x ∈ result.1 <-> x ∈ points.*1)
  /\ result.2 = (fun x => average (bucket_of x points)) <$> result.1
  /\ length result.1 = length result.2.
Proof.
  cbv zeta.
  destruct (remove_same_coordinates_spec' x_data y_val) as (Hx & Hy).
  split; [done|].
  split; [rewrite Hx; apply NoDup_first_occurrences|].
  split; [intros x; rewrite Hx; apply elem_of_first_occurrences|].
  split; [done|]. rewrite Hy. by rewrite length_fmap.
Qed.

Lemma average_singleton (y : Q) : (average [y] == y)%Q.
Proof. unfold average. simpl. field. Qed.

Lemma bucket_of_cons x (p : X * Q) (ps : list (X * Q)) :
  bucket_of x (p :: ps)
  = (if decide (x = p.1) then [p.2] else []) ++ bucket_of x ps.
Proof.
  change (p :: ps) with ([p] ++ ps).
  by rewrite bucket_of_app, bucket_of_singleton.
Qed.

Lemma averages_of_distinct (xs : list X) (ys : list Q) :
  NoDup xs -> length xs = length ys ->
  Forall2 Qeq ((fun x => average (bucket_of x (zip xs ys))) <$> xs) ys.
Proof.
  intros Hnd. revert ys. induction Hnd as [|x xs Hx Hnd IH];
    intros [|y ys] Hlen; try discriminate; [constructor|].
  injection Hlen as Hlen.
  change (zip (x :: xs) (y :: ys)) with ((x, y) :: zip xs ys).
  rewrite fmap_cons. constructor.
  - rewrite bucket_of_cons, decide_True by done. rewrite bucket_of_absent.
    + apply average_singleton.
    + intros Hin. apply Hx.
      apply list_elem_of_fmap in Hin as ([x' y'] & -> & Hin).
      by apply elem_of_zip_l in Hin.
  - assert (E : (fun x0 => average (bucket_of x0 ((x, y) :: zip xs ys))) <$> xs
                = (fun x0 => average (bucket_of x0 (zip xs ys))) <$> xs).
    { apply list_fmap_ext. intros i k Hk. f_equal.
      rewrite bucket_of_cons, decide_False; [done|]. simpl. intros ->.
      apply Hx. by eapply list_elem_of_lookup_2. }
    rewrite E. by apply IH.
Qed.

(** X24. Points whose x-coordinates are pairwise different come back as
    they are: the same x-coordinates in the same order, each with its own
    y-coordinate. *)
Theorem remove_same_coordinates_distinct (x_data : list X) (y_val : list Q) :
  NoDup x_data -> length x_data = length y_val ->
  (remove_same_coordinates x_data y_val).1 = x_data
  /\ Forall2 Qeq (remove_same_coordinates x_data y_val).2 y_val.
Proof.
  intros Hnd Hlen.
  destruct (remove_same_coordinates_spec' x_data y_val) as (Hx & Hy).
  assert (Hfst : (zip x_data y_val).*1 = x_data) by (apply fst_zip; lia).
  rewrite Hfst, first_occurrences_NoDup in Hx by done.
  rewrite Hx in Hy. split; [done|]. rewrite Hy.
  by apply averages_of_distinct.
Qed.

End Coordinates.

Lemma remove_same_coordinates_distinct_witness :
  NoDup [1; 2; 3] /\ length [1; 2; 3] = length [5%Q; 7%Q; 9%Q]
  /\ (remove_same_coordinates [1; 2; 3] [5%Q; 7%Q; 9%Q]).1 = [1; 2; 3]
  /\ Forall2 Qeq (remove_same_coordinates [1; 2; 3] [5%Q; 7%Q; 9%Q]).2
       [5%Q; 7%Q; 9%Q].
Proof.
  assert (Hnd : NoDup [1; 2; 3]).
  { apply NoDup_ListNoDup. repeat constructor; simpl; intuition lia. }
  split; [exact Hnd|]. split; [reflexivity|].
  exact (remove_same_coordinates_distinct [1; 2; 3] [5%Q; 7%Q; 9%Q] Hnd eq_refl).
Defined.

End MiscFacts.
